(** * dexlite: the resilient streaming-connection manager

    A shallow embedding of [src/hooks/useWebsocket.ts] (the [useWebsocket]
    React hook) and the properties its specification states about it.

    The hook keeps its state in reference cells ([useRef]) and one React
    state cell ([connected]); every piece of code of the hook runs to
    completion inside one turn of the host's event loop.  The embedding
    therefore has

    - one record [State] holding the reference cells of the hook together
      with the part of the host the hook talks to: the transport objects
      it constructed, the pending timeouts and the ordered trace of the
      effects that leave the hook (frames handed to the transport,
      callbacks invoked);
    - a small state-and-exception monad [M] in which the bodies of
      [connect], [send], [disconnect] and of the four transport event
      handlers are written the way the source writes them, [try]/[catch]
      included;
    - an [Event] type for the turns of the event loop and [dispatch] for
      what each turn runs.

    Numbers that the source computes with ([reconnectInterval], the delay)
    are JavaScript numbers, that is IEEE 754 binary64 values: products are
    rounded, and NaN and the infinities are numbers like the others. *)

From Stdlib Require Import QArith Qminmax Qpower Qabs Ascii SpecFloat.
From stdpp Require Import base option list gmap strings pretty.

Open Scope string_scope.
Open Scope list_scope.

(** ** Values that travel over the connection *)

(** A JavaScript value as far as the hook can tell values apart: what
    [send] receives ([Record<string, unknown>]) and what [JSON.parse]
    returns. *)
#[local] Unset Elimination Schemes.
Inductive JsValue : Type :=
| JNull
| JBool (b : bool)
| JNum (z : Z)
| JStr (s : string)
| JBigInt (z : Z)
| JArr (items : list JsValue)
| JObj (fields : list (string * JsValue)).
#[local] Set Elimination Schemes.

(** ** Numbers

    A JavaScript number is a binary64 floating-point value: [spec_float] of
    the Standard Library with 53 bits of precision and exponents up to
    1024. *)
Definition Number : Type := spec_float.

(** [x * y], rounded to the nearest number, ties to even. *)
Definition num_mul : Number -> Number -> Number := SFmul 53 1024.

(** The number nearest to [m * 2^e]; [ms z] is the integer literal [z]. *)
Definition dyadic (m e : Z) : Number := binary_normalize 53 1024 m e false.

Definition ms (z : Z) : Number := dyadic z 0.

(** The literal [1.5]. *)
Definition one_and_a_half : Number := dyadic 3 (-1).

(** The real number a finite number stands for. *)
Definition real_of (x : Number) : Q :=
  match x with
  | S754_finite s m e => (if s then - (Z.pos m # 1) else Z.pos m # 1) * 2 ^ e
  | _ => 0
  end.

Definition num_value (x : Number) : option Q :=
  match x with
  | S754_nan | S754_infinity _ => None
  | _ => Some (real_of x)
  end.

(** [x] is finite and stands for the real [q]. *)
Definition has_value (x : Number) (q : Q) : Prop :=
  match num_value x with
  | Some v => v == q
  | None => False
  end.

(** The comparison of IEEE 754: by value, the infinities at the two ends,
    no answer when one side is NaN. *)
Definition num_compare (x y : Number) : option comparison :=
  match x, y with
  | S754_nan, _ | _, S754_nan => None
  | S754_infinity sx, S754_infinity sy =>
      Some (match sx, sy with true, false => Lt | false, true => Gt | _, _ => Eq end)
  | S754_infinity sx, _ => Some (if sx then Lt else Gt)
  | _, S754_infinity sy => Some (if sy then Gt else Lt)
  | _, _ => Some (Qcompare (real_of x) (real_of y))
  end.

(** [Math.min(x, y)]: NaN when an argument is NaN, and [-0] is below [+0]. *)
Definition Math_min (x y : Number) : Number :=
  match num_compare x y with
  | None => S754_nan
  | Some Lt => x
  | Some Gt => y
  | Some Eq => match x with S754_zero true => x | _ => y end
  end.

(** The runtime functions the hook calls and does not define.
    [JSON_stringify m = None] and [JSON_parse raw = None] stand for the call
    throwing; [url_valid u = false] for [new WebSocket(u)] throwing;
    [Math_pow] is [Math.pow], whose result ECMAScript leaves to the
    implementation (an approximation of the power). *)
Class Runtime := {
  JSON_stringify : JsValue -> option string;
  JSON_parse : string -> option JsValue;
  url_valid : string -> bool;
  Math_pow : Number -> Number -> Number
}.

(** ** The transport object *)

Inductive ReadyState := CONNECTING | OPEN | CLOSING | CLOSED.

Definition ReadyState_eqb (a b : ReadyState) : bool :=
  match a, b with
  | CONNECTING, CONNECTING | OPEN, OPEN | CLOSING, CLOSING | CLOSED, CLOSED => true
  | _, _ => false
  end.

(** One [WebSocket] instance.  The four handler slots only ever hold the
    closure [connect] installed for this very socket, or [null]: a boolean
    per slot says which. *)
Record Socket := {
  sock_url : string;
  readyState : ReadyState;
  onopen : bool;
  onmessage : bool;
  onerror : bool;
  onclose : bool
}.

Definition set_readyState (r : ReadyState) (k : Socket) : Socket :=
  {| sock_url := sock_url k; readyState := r; onopen := onopen k;
     onmessage := onmessage k; onerror := onerror k; onclose := onclose k |}.

(** [ws.onopen = null; ws.onmessage = null; ws.onerror = null; ws.onclose = null] *)
Definition detach (k : Socket) : Socket :=
  {| sock_url := sock_url k; readyState := readyState k; onopen := false;
     onmessage := false; onerror := false; onclose := false |}.

(** [ws.onopen = ...; ws.onmessage = ...; ws.onerror = ...; ws.onclose = ...] *)
Definition attach (k : Socket) : Socket :=
  {| sock_url := sock_url k; readyState := readyState k; onopen := true;
     onmessage := true; onerror := true; onclose := true |}.

(** ** Options, timers, observable effects *)

(** [maxReconnectAttempts]: a count, or [Infinity] (the default). *)
Inductive Limit := Finite (n : nat) | Infinity.

Record Options := {
  reconnect : bool;
  reconnectInterval : Number;
  maxReconnectAttempts : Limit
}.

Definition default_options : Options :=
  {| reconnect := true; reconnectInterval := ms 3000; maxReconnectAttempts := Infinity |}.

(** The three closures the hook hands to [setTimeout]. *)
Inductive TimerBody :=
| RetryAfterClose                 (* scheduled by ws.onclose *)
| RetryAfterCatch                 (* scheduled by the catch branch of connect *)
| MountDelay (url : string).      (* scheduled by the main effect, 100 ms *)

Record Timer := { timer_delay : Number; timer_body : TimerBody }.

(** What leaves the hook, in the order it happens. *)
Inductive Obs :=
| ObsConstruct (h : nat) (url : string)   (* new WebSocket(url) returned socket h *)
| ObsTransmit (h : nat) (frame : string)  (* ws.send(frame) accepted by socket h *)
| ObsCloseCall (h : nat)                  (* ws.close() on socket h *)
| ObsOnOpen                               (* onOpen?.() *)
| ObsOnClose                              (* onClose?.() *)
| ObsOnError                              (* onError?.(error) *)
| ObsHandler (data : JsValue).            (* handlerRef.current(data) *)

(** ** The state of one hook instance *)

Record State := {
  wsRef : option nat;
  reconnectTimeoutRef : option nat;
  reconnectAttemptsRef : nat;
  urlRef : option string;
  connectRef : bool;
  isManualCloseRef : bool;
  isConnectingRef : bool;
  messageQueueRef : list JsValue;
  connected : bool;
  (* the closure of the main effect that is currently installed *)
  effectUrl : option string;
  effectTimer : option nat;
  (* the host *)
  sockets : list Socket;
  timers : gmap nat Timer;
  nextTimer : nat;
  trace : list Obs
}.

Definition set_wsRef (v : option nat) (s : State) : State :=
  let 'Build_State _ b c d e f g h i j k l m n o := s in Build_State v b c d e f g h i j k l m n o.
Definition set_reconnectTimeoutRef (v : option nat) (s : State) : State :=
  let 'Build_State a _ c d e f g h i j k l m n o := s in Build_State a v c d e f g h i j k l m n o.
Definition set_reconnectAttemptsRef (v : nat) (s : State) : State :=
  let 'Build_State a b _ d e f g h i j k l m n o := s in Build_State a b v d e f g h i j k l m n o.
Definition set_urlRef (v : option string) (s : State) : State :=
  let 'Build_State a b c _ e f g h i j k l m n o := s in Build_State a b c v e f g h i j k l m n o.
Definition set_connectRef (v : bool) (s : State) : State :=
  let 'Build_State a b c d _ f g h i j k l m n o := s in Build_State a b c d v f g h i j k l m n o.
Definition set_isManualCloseRef (v : bool) (s : State) : State :=
  let 'Build_State a b c d e _ g h i j k l m n o := s in Build_State a b c d e v g h i j k l m n o.
Definition set_isConnectingRef (v : bool) (s : State) : State :=
  let 'Build_State a b c d e f _ h i j k l m n o := s in Build_State a b c d e f v h i j k l m n o.
Definition set_messageQueueRef (v : list JsValue) (s : State) : State :=
  let 'Build_State a b c d e f g _ i j k l m n o := s in Build_State a b c d e f g v i j k l m n o.
Definition setConnected (v : bool) (s : State) : State :=
  let 'Build_State a b c d e f g h _ j k l m n o := s in Build_State a b c d e f g h v j k l m n o.
Definition set_effect (u : option string) (t : option nat) (s : State) : State :=
  let 'Build_State a b c d e f g h i _ _ l m n o := s in Build_State a b c d e f g h i u t l m n o.
Definition set_sockets (v : list Socket) (s : State) : State :=
  let 'Build_State a b c d e f g h i j k _ m n o := s in Build_State a b c d e f g h i j k v m n o.
Definition set_timers (v : gmap nat Timer) (s : State) : State :=
  let 'Build_State a b c d e f g h i j k l _ n o := s in Build_State a b c d e f g h i j k l v n o.
Definition set_nextTimer (v : nat) (s : State) : State :=
  let 'Build_State a b c d e f g h i j k l m _ o := s in Build_State a b c d e f g h i j k l m v o.
Definition set_trace (v : list Obs) (s : State) : State :=
  let 'Build_State a b c d e f g h i j k l m n _ := s in Build_State a b c d e f g h i j k l m n v.

(** One more observable effect. *)
Definition emit (e : Obs) (s : State) : State := set_trace (trace s ++ [e]) s.

(** ** Completion of a piece of code: it returns, or it throws *)

(** What is thrown: by [JSON.stringify], by [JSON.parse] and
    [new WebSocket], by [ws.send], and by the code of the caller. *)
Inductive Exn := TypeError | SyntaxError | InvalidStateError | CallerError.

Inductive Outcome (A : Type) : Type :=
| Returns (a : A) (s : State)
| Throws (e : Exn) (s : State).
Arguments Returns {A} a s.
Arguments Throws {A} e s.

Definition M (A : Type) : Type := State -> Outcome A.

Definition ret {A} (a : A) : M A := fun s => Returns a s.
Definition throw {A} (e : Exn) : M A := fun s => Throws e s.
Definition bind {A B} (c : M A) (k : A -> M B) : M B :=
  fun s => match c s with
           | Returns a s' => k a s'
           | Throws e s' => Throws e s'
           end.
(** [try { body } catch { handler }]: what [body] wrote before it threw stays written. *)
Definition try_catch {A} (body : M A) (handler : Exn -> M A) : M A :=
  fun s => match body s with
           | Returns a s' => Returns a s'
           | Throws e s' => handler e s'
           end.
Definition get : M State := fun s => Returns s s.
Definition modify (f : State -> State) : M unit := fun s => Returns tt (f s).
Definition when (b : bool) (c : M unit) : M unit := if b then c else ret tt.

Definition final {A} (o : Outcome A) : State :=
  match o with Returns _ s => s | Throws _ s => s end.
Definition returns {A} (o : Outcome A) : bool :=
  match o with Returns _ _ => true | Throws _ _ => false end.

Declare Scope hook_scope.
Delimit Scope hook_scope with hook.
Notation "x <- c1 ;; c2" := (bind c1 (fun x => c2))
  (at level 20, c1 at level 99, c2 at level 200, only parsing) : hook_scope.
Notation "c1 ;; c2" := (bind c1 (fun _ => c2))
  (at level 100, c2 at level 200, right associativity, only parsing) : hook_scope.
Open Scope hook_scope.

(** ** The code of the caller

    [onOpen], [onClose] and [onError] (options of the hook) and the message
    handler are functions of the caller: each one is a piece of code that
    may do what it likes to the state, return, or throw.  An option that is
    not given ([onOpen?.()]) is a callback that returns at once. *)
Record Callbacks := {
  onOpen : M unit;
  onClose : M unit;
  onError : M unit;
  handler : JsValue -> M unit
}.

(** Callbacks that do nothing and return. *)
Definition returning : Callbacks :=
  {| onOpen := ret tt; onClose := ret tt; onError := ret tt; handler := fun _ => ret tt |}.

(** A call of a callback: the call is observable, then the callback runs. *)
Definition call (o : Obs) (body : M unit) : M unit :=
  modify (emit o) ;; body.

(** ** The reconnect delay of the specification *)

(** The delay as the specification words it, in real arithmetic:
    [min(base * 1.5^(n-1), 30000)] milliseconds. *)
Definition spec_delay (base : Q) (n : nat) : Q :=
  Qmin (base * 1.5 ^ (Z.of_nat n - 1)) 30000.

(** ** The hook *)

Section Hook.

Context {rt : Runtime} (opts : Options).

(** *** What the host does when the hook calls it *)

Definition socket_at (h : nat) (s : State) : option Socket := sockets s !! h.

Definition ready_at (h : nat) (s : State) : option ReadyState :=
  readyState <$> socket_at h s.

Definition is_ready (h : nat) (r : ReadyState) (s : State) : bool :=
  match ready_at h s with
  | Some r' => ReadyState_eqb r' r
  | None => false
  end.

Definition update_socket (h : nat) (f : Socket -> Socket) (s : State) : State :=
  set_sockets (alter f h (sockets s)) s.

(** [new WebSocket(url)]: throws on an address the host rejects; otherwise a
    fresh socket, CONNECTING, with no handler installed yet. *)
Definition new_WebSocket (url : string) : M nat :=
  fun s =>
    if url_valid url then
      let h := length (sockets s) in
      let k := {| sock_url := url; readyState := CONNECTING; onopen := false;
                  onmessage := false; onerror := false; onclose := false |} in
      Returns h (emit (ObsConstruct h url) (set_sockets (sockets s ++ [k]) s))
    else Throws SyntaxError s.

(** [ws.send(frame)]: throws while CONNECTING, hands the frame over while
    OPEN, and discards it silently once the socket is CLOSING or CLOSED. *)
Definition ws_send (h : nat) (frame : string) : M unit :=
  fun s =>
    match ready_at h s with
    | Some CONNECTING => Throws InvalidStateError s
    | Some OPEN => Returns tt (emit (ObsTransmit h frame) s)
    | _ => Returns tt s
    end.

(** [ws.close()]: starts the closing handshake of a socket that is CONNECTING
    or OPEN; no event is dispatched during the call. *)
Definition ws_close (h : nat) : M unit :=
  fun s =>
    match ready_at h s with
    | Some CONNECTING | Some OPEN =>
        Returns tt (emit (ObsCloseCall h) (update_socket h (set_readyState CLOSING) s))
    | _ => Returns tt (emit (ObsCloseCall h) s)
    end.

(** [JSON.stringify(message)] *)
Definition stringify (m : JsValue) : M string :=
  fun s => match JSON_stringify m with
           | Some frame => Returns frame s
           | None => Throws TypeError s
           end.

(** [JSON.parse(event.data)] *)
Definition parse (raw : string) : M JsValue :=
  fun s => match JSON_parse raw with
           | Some v => Returns v s
           | None => Throws SyntaxError s
           end.

(** [setTimeout(body, delay)] returns a fresh identifier. *)
Definition setTimeout (body : TimerBody) (delay : Number) : M nat :=
  fun s =>
    let id := nextTimer s in
    Returns id (set_nextTimer (S id)
                  (set_timers (<[id := {| timer_delay := delay; timer_body := body |}]> (timers s)) s)).

(** [clearTimeout(id)] *)
Definition clearTimeout (id : nat) : M unit :=
  modify (fun s => set_timers (delete id (timers s)) s).

(** *** Helpers for the conditions the source writes *)

(** [!url] on a [string | null]: [null] and the empty string are falsy. *)
Definition truthy (u : option string) : bool :=
  match u with
  | Some a => negb (String.eqb a "")
  | None => false
  end.

(** [reconnectAttemptsRef.current < maxReconnectAttempts] *)
Definition below_limit (n : nat) (l : Limit) : bool :=
  match l with
  | Finite m => Nat.ltb n m
  | Infinity => true
  end.

(** [Math.min(reconnectInterval * Math.pow(1.5, attempts - 1), 30000)] *)
Definition reconnect_delay (attempts : nat) : Number :=
  Math_min
    (num_mul (reconnectInterval opts)
       (Math_pow one_and_a_half (ms (Z.of_nat attempts - 1))))
    (ms 30000).

(** The teardown of the current socket, as [disconnect] and the two
    clean-up closures of the main effect write it:
    [if (wsRef.current) { try { detach; if (CONNECTING || OPEN) close() } catch {} wsRef.current = null }] *)
Definition teardown_socket : M unit :=
  s <- get ;;
  match wsRef s with
  | Some h =>
      try_catch
        (modify (update_socket h detach) ;;
         s1 <- get ;;
         when (is_ready h CONNECTING s1 || is_ready h OPEN s1) (ws_close h))
        (fun _ => ret tt) ;;
      modify (set_wsRef None)
  | None => ret tt
  end.

(** [if (reconnectTimeoutRef.current) { clearTimeout(...); reconnectTimeoutRef.current = null }] *)
Definition cancel_reconnect_timer : M unit :=
  s <- get ;;
  match reconnectTimeoutRef s with
  | Some id => clearTimeout id ;; modify (set_reconnectTimeoutRef None)
  | None => ret tt
  end.

(** The retry block shared, word for word, by [ws.onclose] (lines 161-185)
    and by the catch branch of [connect] (lines 193-210); [body] is the
    closure each of them schedules. *)
Definition schedule_reconnect (body : TimerBody) : M unit :=
  s <- get ;;
  when (negb (isManualCloseRef s) && reconnect opts && truthy (urlRef s)
        && connectRef s
        && below_limit (reconnectAttemptsRef s) (maxReconnectAttempts opts))
    (modify (fun s => set_reconnectAttemptsRef (S (reconnectAttemptsRef s)) s) ;;
     s1 <- get ;;
     id <- setTimeout body (reconnect_delay (reconnectAttemptsRef s1)) ;;
     modify (set_reconnectTimeoutRef (Some id))).

(** *** The closures [connect] installs on the socket [h] it creates *)

Fixpoint forEach {A} (l : list A) (f : A -> M unit) : M unit :=
  match l with
  | [] => ret tt
  | x :: rest => f x ;; forEach rest f
  end.

(** [ws.send(JSON.stringify(msg))], as both [ws.onopen] and [send] write it. *)
Definition transmit (h : nat) (msg : JsValue) : M unit :=
  frame <- stringify msg ;;
  ws_send h frame.

(** The body of [queue.forEach], lines 112-120. *)
Definition flush_one (h : nat) (msg : JsValue) : M unit :=
  try_catch
    (s <- get ;;
     when (is_ready h OPEN s) (transmit h msg))
    (fun _ => ret tt).

(** [ws.onopen], lines 103-123; [onOpen?.()] is the last statement,
    outside any [try]. *)
Definition ws_onopen_with (cb : Callbacks) (h : nat) : M unit :=
  modify (set_isConnectingRef false) ;;
  modify (setConnected true) ;;
  modify (set_reconnectAttemptsRef 0) ;;
  s <- get ;;
  let queue := messageQueueRef s in
  modify (set_messageQueueRef []) ;;
  forEach queue (flush_one h) ;;
  call ObsOnOpen (onOpen cb).

(** [ws.onmessage], lines 125-132; the handler is called inside the
    [try]. *)
Definition ws_onmessage_with (cb : Callbacks) (raw : string) : M unit :=
  try_catch
    (data <- parse raw ;; call (ObsHandler data) (handler cb data))
    (fun _ => ret tt).

(** [ws.onerror], lines 134-139; [onError?.(error)] is outside any
    [try]. *)
Definition ws_onerror_with (cb : Callbacks) : M unit :=
  modify (set_isConnectingRef false) ;;
  call ObsOnError (onError cb).

(** [ws.onclose], lines 141-186; [onClose?.()] (line 153) is outside any
    [try]: when it throws, lines 155-185 do not run. *)
Definition ws_onclose_with (cb : Callbacks) (h : nat) : M unit :=
  modify (set_isConnectingRef false) ;;
  modify (setConnected false) ;;
  modify (set_messageQueueRef []) ;;
  call ObsOnClose (onClose cb) ;;
  s <- get ;;
  when (bool_decide (wsRef s = Some h)) (modify (set_wsRef None)) ;;
  schedule_reconnect RetryAfterClose.

(** The four closures with callbacks that return normally and leave the
    hook alone: all that is left of a call is its place in the trace. *)
Definition ws_onopen (h : nat) : M unit := ws_onopen_with returning h.

Definition ws_onmessage (raw : string) : M unit := ws_onmessage_with returning raw.

Definition ws_onerror : M unit := ws_onerror_with returning.

Definition ws_onclose (h : nat) : M unit := ws_onclose_with returning h.

(** *** [connect], lines 50-219 *)

(** [reconnectAttemptsRef.current >= maxReconnectAttempts] *)
Definition reached_limit (n : nat) (l : Limit) : bool :=
  match l with
  | Finite m => Nat.leb m n
  | Infinity => false
  end.

Definition current_is (r : ReadyState) (s : State) : bool :=
  match wsRef s with
  | Some h => is_ready h r s
  | None => false
  end.

(** Lines 96-211: the [try]/[catch] around [new WebSocket]. *)
Definition open_transport : M unit :=
  modify (set_isConnectingRef true) ;;
  try_catch
    (s <- get ;;
     h <- new_WebSocket (default "" (urlRef s)) ;;
     modify (set_wsRef (Some h)) ;;
     modify (update_socket h attach))
    (fun _ =>
       modify (set_isConnectingRef false) ;;
       modify (setConnected false) ;;
       schedule_reconnect RetryAfterCatch).

Definition connect : M unit :=
  s <- get ;;
  if negb (truthy (urlRef s)) || isManualCloseRef s then ret tt
  else if current_is OPEN s then ret tt
  else if isConnectingRef s then ret tt
  else if reached_limit (reconnectAttemptsRef s) (maxReconnectAttempts opts) then ret tt
  else
    match wsRef s with
    | Some h =>
        if is_ready h OPEN s || is_ready h CLOSED s then
          try_catch
            (modify (update_socket h detach) ;;
             when (is_ready h OPEN s) (ws_close h))
            (fun _ => ret tt) ;;
          modify (set_wsRef None) ;;
          open_transport
        else if is_ready h CONNECTING s then ret tt
        else open_transport
    | None => open_transport
    end.

(** *** [send], lines 226-252 *)

Definition enqueue (message : JsValue) (s : State) : State :=
  set_messageQueueRef (messageQueueRef s ++ [message]) s.

Definition send (message : JsValue) : M unit :=
  s <- get ;;
  match wsRef s with
  | None => modify (enqueue message)
  | Some h =>
      if is_ready h OPEN s then
        try_catch
          (transmit h message)
          (fun _ =>
             s1 <- get ;;
             when (is_ready h OPEN s1) (modify (enqueue message)))
      else if is_ready h CONNECTING s then modify (enqueue message)
      else modify (enqueue message)
  end.

(** *** [disconnect], lines 254-282 *)

Definition disconnect : M unit :=
  modify (set_isManualCloseRef true) ;;
  modify (set_isConnectingRef false) ;;
  cancel_reconnect_timer ;;
  teardown_socket ;;
  modify (setConnected false).

(** *** The main effect, lines 285-356 *)

(** The body both clean-up closures share (lines 302-324 and 331-353). *)
Definition effect_teardown : M unit :=
  modify (set_isManualCloseRef true) ;;
  cancel_reconnect_timer ;;
  teardown_socket ;;
  modify (setConnected false).

(** The clean-up closure of the effect that ran last: the one returned at
    line 298 when it scheduled the mount timer, else the one at line 330. *)
Definition main_effect_cleanup : M unit :=
  s <- get ;;
  match effectTimer s with
  | Some timeoutId =>
      clearTimeout timeoutId ;;
      s1 <- get ;;
      when (negb (bool_decide (urlRef s1 = effectUrl s1))) effect_teardown
  | None => effect_teardown
  end.

Definition main_effect (url : option string) : M unit :=
  modify (set_isManualCloseRef false) ;;
  modify (set_reconnectAttemptsRef 0) ;;
  s <- get ;;
  if truthy url && negb (isManualCloseRef s) then
    timeoutId <- setTimeout (MountDelay (default "" url)) (ms 100) ;;
    modify (set_effect url (Some timeoutId))
  else modify (set_effect url None).

(** A commit in which the [url] argument differs from the previous one:
    React runs the clean-up of the effects that depend on it, then the
    effects in source order (line 47, then line 285). *)
Definition url_changes (url : option string) : M unit :=
  s <- get ;;
  if bool_decide (url = effectUrl s) then ret tt
  else
    main_effect_cleanup ;;
    modify (set_urlRef url) ;;
    main_effect url.

(** *** Turns of the event loop *)

Inductive Event :=
| CallSend (message : JsValue)
| CallDisconnect
| TimerFires (id : nat)
| SocketOpens (h : nat)
| SocketMessage (h : nat) (raw : string)
| SocketError (h : nat)
| SocketCloses (h : nat)
| PeerStartsClosing (h : nat)
| UrlChanges (url : option string)
| Unmount.

Definition run_timer (body : TimerBody) : M unit :=
  s <- get ;;
  match body with
  | RetryAfterClose =>
      when (connectRef s && negb (isManualCloseRef s) && negb (isConnectingRef s)) connect
  | RetryAfterCatch =>
      when (connectRef s && negb (isManualCloseRef s)) connect
  | MountDelay url =>
      when (negb (isManualCloseRef s) && bool_decide (urlRef s = Some url)) connect
  end.

Definition installed (slot : Socket -> bool) (h : nat) (s : State) : bool :=
  match socket_at h s with
  | Some k => slot k
  | None => false
  end.

Definition dispatch_with (cb : Callbacks) (e : Event) : M unit :=
  s <- get ;;
  match e with
  | CallSend message => send message
  | CallDisconnect => disconnect
  | TimerFires id =>
      match timers s !! id with
      | Some t => modify (fun s => set_timers (delete id (timers s)) s) ;; run_timer (timer_body t)
      | None => ret tt
      end
  | SocketOpens h =>
      when (is_ready h CONNECTING s)
        (modify (update_socket h (set_readyState OPEN)) ;;
         when (installed onopen h s) (ws_onopen_with cb h))
  | SocketMessage h raw =>
      when (is_ready h OPEN s && installed onmessage h s) (ws_onmessage_with cb raw)
  | SocketError h =>
      when (installed onerror h s) (ws_onerror_with cb)
  | SocketCloses h =>
      match ready_at h s with
      | Some CLOSED | None => ret tt
      | Some _ =>
          modify (update_socket h (set_readyState CLOSED)) ;;
          when (installed onclose h s) (ws_onclose_with cb h)
      end
  | PeerStartsClosing h =>
      when (is_ready h OPEN s) (modify (update_socket h (set_readyState CLOSING)))
  | UrlChanges url => url_changes url
  | Unmount => main_effect_cleanup
  end.

(** A turn in which the callbacks return normally. *)
Definition dispatch (e : Event) : M unit := dispatch_with returning e.

Definition step (e : Event) (s : State) : State := final (dispatch e s).

Definition run (es : list Event) (s : State) : State := foldl (fun s e => step e s) s es.

(** The hook right after its first commit with [url]: the reference cells
    hold their [useRef] initial values, the effect of line 223 has stored
    [connect], and the main effect has run once. *)
Definition fresh (url : option string) : State :=
  {| wsRef := None; reconnectTimeoutRef := None; reconnectAttemptsRef := 0;
     urlRef := url; connectRef := true; isManualCloseRef := false;
     isConnectingRef := false; messageQueueRef := []; connected := false;
     effectUrl := None; effectTimer := None;
     sockets := []; timers := ∅; nextTimer := 1; trace := [] |}.

Definition mounted (url : option string) : State := final (main_effect url (fresh url)).

(** *** Vocabulary of the properties *)

(** The frames the transport accepts when the messages [q] are handed to
    [transmit] one after the other on an open socket [h]: a message that
    [JSON.stringify] rejects contributes nothing. *)
Definition transmitted (h : nat) (q : list JsValue) : list Obs :=
  omap (fun m => ObsTransmit h <$> JSON_stringify m) q.

(** The handler calls a run of inbound frames gives rise to. *)
Definition delivered (raws : list string) : list Obs :=
  omap (fun raw => ObsHandler <$> JSON_parse raw) raws.

(** The condition of lines 161-167 and 193-199. *)
Definition retry_allowed (s : State) : bool :=
  negb (isManualCloseRef s) && reconnect opts && truthy (urlRef s)
  && connectRef s
  && below_limit (reconnectAttemptsRef s) (maxReconnectAttempts opts).

(** What [schedule_reconnect] leaves behind when its condition holds. *)
Definition retry_scheduled (body : TimerBody) (s s' : State) : Prop :=
  reconnectAttemptsRef s' = S (reconnectAttemptsRef s) /\
  exists id t,
    reconnectTimeoutRef s' = Some id /\
    timers s' !! id = Some t /\
    timer_body t = body /\
    timer_delay t = reconnect_delay (reconnectAttemptsRef s').

(** [reconnectInterval * Math.pow(1.5, n - 1)] is computed without rounding:
    the interval is the real [b], [Math.pow] returns the power itself, and
    the product is a number. *)
Definition computed_exactly (b : Q) (n : nat) : Prop :=
  has_value (reconnectInterval opts) b /\
  has_value (Math_pow one_and_a_half (ms (Z.of_nat n - 1))) ((3 # 2) ^ (Z.of_nat n - 1)) /\
  has_value (num_mul (reconnectInterval opts)
               (Math_pow one_and_a_half (ms (Z.of_nat n - 1))))
            (b * (3 # 2) ^ (Z.of_nat n - 1)).

(** [Math.pow(1.5, k)] is the power itself, which is a number for the [k]
    in question. *)
Definition pow_exact_at (k : nat) : Prop :=
  Math_pow one_and_a_half (ms (Z.of_nat k)) = dyadic (3 ^ Z.of_nat k) (- Z.of_nat k).

End Hook.

(** The callbacks among the observable effects. *)
Definition is_callback (o : Obs) : bool :=
  match o with
  | ObsOnOpen | ObsOnClose | ObsOnError | ObsHandler _ => true
  | ObsConstruct _ _ | ObsTransmit _ _ | ObsCloseCall _ => false
  end.

Definition callbacks (t : list Obs) : list Obs := List.filter is_callback t.

(** Every turn but a change of the target address. *)
Definition keeps_address (e : Event) : bool :=
  match e with
  | UrlChanges _ => false
  | _ => true
  end.

(** The turns in which the transport [h] dispatches an event. *)
Definition on_socket (h : nat) (e : Event) : bool :=
  match e with
  | SocketOpens h' | SocketMessage h' _ | SocketError h' | SocketCloses h'
  | PeerStartsClosing h' => Nat.eqb h h'
  | _ => false
  end.

(** No transport of the hook is still being established. *)
Definition none_connecting (s : State) : bool :=
  forallb (fun k => negb (ReadyState_eqb (readyState k) CONNECTING)) (sockets s).

(** What the teardown of [disconnect] makes of the transport that was
    current: the four handler slots are emptied, and [close()] moves a
    transport that was Connecting or Open to Closing. *)
Definition torn_down (k : Socket) : Socket :=
  match readyState k with
  | CONNECTING | OPEN => set_readyState CLOSING (detach k)
  | CLOSING | CLOSED => detach k
  end.

(** ** A runtime to run the hook on

    [JSON.stringify] on the values of [JsValue] whose strings need no
    escape: it throws on a [BigInt], wherever it sits. *)
Definition dquote : string := String "034"%char "".

Definition join_with (sep : string) (parts : list string) : string :=
  match parts with
  | [] => ""
  | p :: rest => fold_left (fun acc q => acc +:+ sep +:+ q) rest p
  end.

Fixpoint sample_stringify (v : JsValue) : option string :=
  match v with
  | JNull => Some "null"
  | JBool b => Some (if b then "true" else "false")
  | JNum z => Some (pretty z)
  | JStr a => Some (dquote +:+ a +:+ dquote)
  | JBigInt _ => None
  | JArr items =>
      (fun parts => "[" +:+ join_with "," parts +:+ "]") <$>
      (fix each (l : list JsValue) : option (list string) :=
         match l with
         | [] => Some []
         | x :: rest =>
             match sample_stringify x, each rest with
             | Some a, Some b => Some (a :: b)
             | _, _ => None
             end
         end) items
  | JObj fields =>
      (fun parts => "{" +:+ join_with "," parts +:+ "}") <$>
      (fix each (l : list (string * JsValue)) : option (list string) :=
         match l with
         | [] => Some []
         | (key, x) :: rest =>
             match sample_stringify x, each rest with
             | Some a, Some b => Some ((dquote +:+ key +:+ dquote +:+ ":" +:+ a) :: b)
             | _, _ => None
             end
         end) fields
  end.

(** A decoder for the short frames the examples receive; a text it does not
    know is rejected, as [JSON.parse] rejects a malformed one. *)
Definition sample_parse (raw : string) : option JsValue :=
  if String.eqb raw "null" then Some JNull
  else if String.eqb raw "true" then Some (JBool true)
  else if String.eqb raw "false" then Some (JBool false)
  else if String.eqb raw "{}" then Some (JObj [])
  else if String.eqb raw "[]" then Some (JArr [])
  else None.

(** [new WebSocket] accepts the addresses of the [ws:] and [wss:] schemes. *)
Definition sample_url_valid (url : string) : bool :=
  String.prefix "ws://" url || String.prefix "wss://" url.

(** [Math.pow] for an exponent that is a natural number: repeated
    multiplication, each product rounded; NaN for any other exponent, which
    the hook never passes. *)
Definition natural_of (x : Number) : option nat :=
  match num_value x with
  | Some q =>
      if Z.leb 0 (Qnum (Qred q)) && Pos.eqb (Qden (Qred q)) 1
      then Some (Z.to_nat (Qnum (Qred q))) else None
  | None => None
  end.

Definition sample_pow (x y : Number) : Number :=
  match natural_of y with
  | Some k => Nat.iter k (num_mul x) (ms 1)
  | None => S754_nan
  end.

Definition sample_runtime : Runtime :=
  {| JSON_stringify := sample_stringify;
     JSON_parse := sample_parse;
     url_valid := sample_url_valid;
     Math_pow := sample_pow |}.

Definition three_attempts : Options :=
  {| reconnect := true; reconnectInterval := ms 3000; maxReconnectAttempts := Finite 3 |}.

(** The number nearest to one tenth, the literal [0.1]. *)
Definition tenth : Number := S754_finite false 7205759403792794 (-56).

Definition tenth_interval : Options :=
  {| reconnect := true; reconnectInterval := tenth; maxReconnectAttempts := Infinity |}.

(** The real number a pending timer waits for, in lowest terms. *)
Definition delay_of (id : nat) (s : State) : option Q :=
  t ← timers s !! id; Qred <$> num_value (timer_delay t).

(** ** Concrete states for the examples *)

Definition feed : option string := Some "wss://feed.example/ws".

Definition ping : JsValue := JObj [("method", JStr "ping")].

(** [{ nonce: 1n }]: an object [JSON.stringify] throws on. *)
Definition unencodable : JsValue := JObj [("nonce", JBigInt 1)].

Definition ping_frame : string :=
  "{" +:+ dquote +:+ "method" +:+ dquote +:+ ":" +:+ dquote +:+ "ping" +:+ dquote +:+ "}".

(** Mounted on [feed], mount timer fired: transport 0 is Connecting. *)
Definition connecting_state : State :=
  run (rt := sample_runtime) default_options [TimerFires 1] (mounted feed).

(** Transport 0 has opened. *)
Definition open_state : State :=
  run (rt := sample_runtime) default_options [SocketOpens 0] connecting_state.

(** Transport 0 was closed by the peer with a budget of three attempts,
    three times in a row: the counter is at the limit. *)
Definition exhausted_state : State :=
  run (rt := sample_runtime) three_attempts
    [TimerFires 1; SocketOpens 0; SocketCloses 0;
     TimerFires 2; SocketCloses 1;
     TimerFires 3; SocketCloses 2]
    (mounted feed).

(** Mounted on an address [new WebSocket] rejects. *)
Definition rejected_state : State := mounted (Some "feed.example").


Definition other : option string := Some "wss://other.example/ws".


(** With an interval of 0.1 ms: two transports in a row are closed before
    they open; timer 3 is the second retry. *)
Definition rounded_state : State :=
  run (rt := sample_runtime) tenth_interval
    [TimerFires 1; SocketCloses 0; TimerFires 2; SocketCloses 1] (mounted feed).


(** Transport 0 was closed by the peer (retry timer 2); then the address
    changed to one the host rejects, and the mount timer ran into the catch
    branch of [connect] (retry timer 4).  [reconnectTimeoutRef] holds timer
    4, and timer 2 is still pending. *)
Definition two_timers_state : State :=
  run (rt := sample_runtime) default_options
    [SocketCloses 0; UrlChanges (Some "feed.example"); TimerFires 3] open_state.

(** Callbacks that throw as soon as they are called. *)
Definition failing : Callbacks :=
  {| onOpen := throw CallerError; onClose := throw CallerError;
     onError := throw CallerError; handler := fun _ => throw CallerError |}.

(** ** Vocabulary of the further properties *)

(** The state in which each of the three callbacks that run outside a
    [try] is called: [onError] after line 136, [onClose] after lines
    147-151 (the transport [h] has just closed), [onOpen] after lines
    105-120 (the transport [h] has just opened and the queue was
    flushed). *)
Definition before_onError (s : State) : State :=
  emit ObsOnError (set_isConnectingRef false s).

Definition before_onClose (h : nat) (s : State) : State :=
  emit ObsOnClose
    (set_messageQueueRef []
       (setConnected false
          (set_isConnectingRef false (update_socket h (set_readyState CLOSED) s)))).

Definition before_onOpen {rt : Runtime} (h : nat) (s : State) : State :=
  let s0 := set_messageQueueRef []
              (set_reconnectAttemptsRef 0
                 (setConnected true
                    (set_isConnectingRef false
                       (update_socket h (set_readyState OPEN) s)))) in
  emit ObsOnOpen (set_trace (trace s0 ++ transmitted h (messageQueueRef s)) s0).

(** The turns that may write the outbound queue. *)
Definition writes_queue (e : Event) : bool :=
  match e with
  | CallSend _ | SocketOpens _ | SocketCloses _ => true
  | _ => false
  end.

(** The messages of [ms] that [JSON.stringify] throws on, in order. *)
Definition rejected_by_stringify {rt : Runtime} (ms : list JsValue) : list JsValue :=
  List.filter (fun m => match JSON_stringify m with Some _ => false | None => true end) ms.

(** The transport [connect] constructs: [new WebSocket(url)] with the four
    handlers assigned. *)
Definition connecting_socket_for (url : string) : Socket :=
  {| sock_url := url; readyState := CONNECTING; onopen := true;
     onmessage := true; onerror := true; onclose := true |}.

(** The clean-up closure of the main effect captured the address that
    [urlRef] holds, and it captured a mount timer exactly when that address
    is truthy. *)
Definition effect_in_sync (s : State) : bool :=
  bool_decide (urlRef s = effectUrl s)
  && match effectTimer s with
     | Some _ => truthy (effectUrl s)
     | None => negb (truthy (effectUrl s))
     end.

(** Only the current transport may still be connecting. *)
Definition only_current_connecting (s : State) : Prop :=
  forall h, is_ready h CONNECTING s = true -> wsRef s = Some h.

(** The same on the two cells it depends on: every connecting transport of
    [l] is the one [w] points to. *)
Definition occ (w : option nat) (l : list Socket) : Prop :=
  forall i k, l !! i = Some k -> readyState k = CONNECTING -> w = Some i.

(** No transport of [l] is connecting. *)
Definition quiet (l : list Socket) : Prop :=
  forall i k, l !! i = Some k -> readyState k <> CONNECTING.

(** A piece of code of the hook keeps the invariant, whether it returns or
    throws. *)
Definition keeps {A} (c : M A) : Prop :=
  forall s, occ (wsRef s) (sockets s) -> occ (wsRef (final (c s))) (sockets (final (c s))).

(** ** The dashboard page that uses the hook

    The pure parts of the page component ([Home]): time stamps are the
    integers [Date.now()] returns, trades are kept as the decoded values
    they arrive as. *)

Definition MAX_ITEMS : nat := 10.

(** The interval callback of the TPS effect: keep the time stamps of the
    last second, [timestamp > now - 1000]. *)
Definition prune_timestamps (now : Z) (stamps : list Z) : list Z :=
  List.filter (fun timestamp => Z.ltb (now - 1000) timestamp) stamps.

(** [setTps(transactionTimestampsRef.current.length)] after the pruning. *)
Definition tps_at (now : Z) (stamps : list Z) : nat := length (prune_timestamps now stamps).

(** [transactionTimestampsRef.current.push(...new Array(trades.length).fill(now))] *)
Definition record_trades (now : Z) (count : nat) (stamps : list Z) : list Z :=
  stamps ++ replicate count now.

(** The updater handed to [setTransactions]:
    [prev => [...trades, ...prev].slice(0, MAX_ITEMS)]. *)
Definition push_transactions {A} (trades prev : list A) : list A :=
  take MAX_ITEMS (trades ++ prev).

(** [hash.slice(0, n)] and [hash.slice(-n)] for [n > 0]; a character stands
    for one UTF-16 code unit. *)
Definition slice_front (n : nat) (a : string) : string := String.substring 0 n a.

Definition slice_back (n : nat) (a : string) : string :=
  String.substring (String.length a - n) n a.

(** [formatHash]: [!hash] holds of the empty string. *)
Definition formatHash (hash : string) : string :=
  if String.eqb hash "" then "N/A"
  else slice_front 8 hash +:+ "..." +:+ slice_back 6 hash.

(** The price history of one coin in the [allMids] branch of the message
    handler, for any representation [P] of a price: push the current price,
    drop the entries that are 24 hours old or older, and read the reference
    price off the oldest entry left (both branches of the source's
    conditional assign [oldestEntry.price]). *)
Definition DAY_MS : Z := 24 * 60 * 60 * 1000.

Definition push_price {P} (now : Z) (currentPrice : P) (history : list (P * Z)) : list (P * Z) :=
  List.filter (fun entry => Z.ltb (now - DAY_MS) (snd entry)) (history ++ [(currentPrice, now)]).

Definition price24h {P} (currentPrice : P) (history : list (P * Z)) : P :=
  match history with
  | oldestEntry :: _ => fst oldestEntry
  | [] => currentPrice
  end.

(** * Properties *)

Section Properties.

Context {rt : Runtime} (opts : Options).

(** The bodies of the hook are straight-line code with branches: they are
    unfolded down to the primitives, and the branches are split. *)
Ltac hook_unfold :=
  unfold step, dispatch, dispatch_with, run_timer, url_changes, main_effect,
    main_effect_cleanup, effect_teardown, disconnect, send, connect, open_transport,
    ws_onclose, ws_onerror, ws_onmessage, ws_onopen, ws_onclose_with, ws_onerror_with,
    ws_onmessage_with, ws_onopen_with, call, returning,
    schedule_reconnect, cancel_reconnect_timer,
    teardown_socket, transmit, clearTimeout, setTimeout, parse, stringify,
    ws_close, ws_send, new_WebSocket, when, modify, get, try_catch, bind, throw, ret,
    retry_allowed, current_is, installed, is_ready, ready_at, socket_at, update_socket,
    enqueue, emit in *.

Ltac bool_tidy :=
  rewrite ?orb_true_r, ?andb_false_r, ?andb_true_r, ?orb_false_r in *; simpl in *.

(** ** Flushing the queue *)

Lemma set_trace_same (s : State) : set_trace (trace s ++ []) s = s.
Proof. destruct s; simpl. by rewrite app_nil_r. Qed.

Lemma set_trace_twice (a b : list Obs) (s : State) :
  set_trace (trace (set_trace (trace s ++ a) s) ++ b) (set_trace (trace s ++ a) s)
  = set_trace (trace s ++ a ++ b) s.
Proof. destruct s; simpl. by rewrite app_assoc. Qed.

Lemma is_ready_set_trace (h : nat) (r : ReadyState) (t : list Obs) (s : State) :
  is_ready h r (set_trace t s) = is_ready h r s.
Proof. by destruct s. Qed.

(** [forEach] over the queue never throws, and all it does is hand the
    encodable messages to the transport, in order. *)
Lemma forEach_flush (h : nat) (q : list JsValue) (s : State) :
  forEach q (flush_one h) s =
  Returns tt (set_trace (trace s ++ (if is_ready h OPEN s then transmitted h q else [])) s).
Proof.
  revert s. induction q as [|m q IH]; intros s.
  - simpl. destruct (is_ready h OPEN s); by rewrite set_trace_same.
  - cbn [forEach]. unfold bind at 1.
    assert (Hone : flush_one h m s =
                   Returns tt (set_trace (trace s ++ (if is_ready h OPEN s
                                                      then transmitted h [m] else [])) s)).
    { unfold flush_one, transmit, try_catch, bind, get, when, stringify, ws_send, ret,
        transmitted.
      destruct (is_ready h OPEN s) eqn:Hr; [|by rewrite set_trace_same].
      simpl. destruct (JSON_stringify m) as [frame|]; simpl.
      - unfold is_ready in Hr. destruct (ready_at h s) as [[]|]; try discriminate.
        reflexivity.
      - by rewrite set_trace_same. }
    rewrite Hone, IH, is_ready_set_trace, set_trace_twice.
    destruct (is_ready h OPEN s); [|reflexivity].
    unfold transmitted. simpl. by destruct (JSON_stringify m).
Qed.

Ltac hook_split :=
  repeat (first [rewrite forEach_flush | case_match]; simpl in *; bool_tidy; simplify_eq).

Ltac hook_cases := hook_unfold; simpl in *; bool_tidy; hook_split; cbn.

(** Every turn of the event loop runs to its end: nothing the hook calls
    throws past it. *)
Lemma dispatch_returns (e : Event) (s : State) : returns (dispatch opts e s) = true.
Proof.
  destruct s, e; hook_cases; reflexivity.
Qed.

Lemma run_cons (e : Event) (es : list Event) (s : State) :
  run opts (e :: es) s = run opts es (step opts e s).
Proof. reflexivity. Qed.

(** ** C7 *)

(** C7.  A second [connect] while the current transport is Open or still
    Connecting is a no-op: it returns without constructing a transport and
    leaves every cell of the hook, the sockets, the timers and the trace
    as they were. *)
Theorem connect_twice_is_noop (s : State) (h : nat) :
  wsRef s = Some h ->
  ready_at h s = Some OPEN \/ ready_at h s = Some CONNECTING ->
  connect opts s = Returns tt s.
Proof.
  intros Hws Hr. destruct s; simpl in *; subst.
  hook_unfold; simpl in *.
  repeat case_match; simpl in *; try reflexivity; try discriminate;
    destruct Hr; simplify_eq.
Qed.

(** ** C4 *)

(** C4.  [send] always returns to its caller; and when the current
    transport is Open and the transmission [ws.send(JSON.stringify(message))]
    throws, the message is appended to the outbound queue and nothing else
    changes. *)
Theorem send_never_raises_and_requeues (s : State) (message : JsValue) :
  returns (send message s) = true /\
  (forall h,
      wsRef s = Some h ->
      is_ready h OPEN s = true ->
      returns (transmit h message s) = false ->
      final (send message s) = enqueue message s).
Proof.
  split.
  - destruct s; hook_cases; reflexivity.
  - intros h Hws Hr Hfail. destruct s; simpl in *; subst.
    hook_cases; try reflexivity; congruence.
Qed.

(** ** C6 *)

Lemma messages_delivered (h : nat) (raws : list string) (s : State) :
  is_ready h OPEN s = true ->
  installed onmessage h s = true ->
  run opts (map (SocketMessage h) raws) s = set_trace (trace s ++ delivered raws) s.
Proof.
  intros Hr Hi. revert s Hr Hi.
  induction raws as [|raw raws IH]; intros s Hr Hi.
  - simpl. by rewrite set_trace_same.
  - rewrite fmap_cons, run_cons.
    assert (Hone : step opts (SocketMessage h raw) s = set_trace (trace s ++ delivered [raw]) s).
    { unfold step, dispatch, dispatch_with, bind, get. rewrite Hr, Hi. simpl.
      unfold ws_onmessage, ws_onmessage_with, call, returning, try_catch, bind, parse, modify, emit, ret, delivered. simpl.
      destruct (JSON_parse raw); simpl; [reflexivity|by rewrite set_trace_same]. }
    rewrite Hone, IH.
    + rewrite set_trace_twice. unfold delivered. simpl.
      by destruct (JSON_parse raw).
    + by rewrite is_ready_set_trace.
    + by destruct s.
Qed.

(** C6.  An inbound frame that [JSON.parse] rejects leaves the whole state
    as it was: the handler is not called, [connected] keeps its value and
    the transport stays as it is.  The frames that follow it are delivered:
    after the bad frame and any further frames [rest], the trace has grown
    by exactly one handler call per decodable frame of [rest], in order. *)
Theorem undecodable_frame_is_skipped (s : State) (h : nat) (raw : string) (rest : list string) :
  is_ready h OPEN s = true ->
  installed onmessage h s = true ->
  JSON_parse raw = None ->
  step opts (SocketMessage h raw) s = s /\
  run opts (map (SocketMessage h) (raw :: rest)) s = set_trace (trace s ++ delivered rest) s.
Proof.
  intros Hr Hi Hbad.
  assert (Hone : step opts (SocketMessage h raw) s = s).
  { unfold step, dispatch, dispatch_with, bind, get. rewrite Hr, Hi. simpl.
    unfold ws_onmessage, ws_onmessage_with, call, returning, try_catch, bind, parse, ret. by rewrite Hbad. }
  split; [exact Hone|].
  rewrite fmap_cons, run_cons, Hone. by apply messages_delivered.
Qed.

(** ** C2 *)

Lemma send_while_not_open (m : JsValue) (s : State) :
  current_is OPEN s = false ->
  step opts (CallSend m) s = enqueue m s.
Proof.
  intros Hc. destruct s; simpl in *.
  hook_cases; try reflexivity; congruence.
Qed.

Lemma sends_while_not_open (ms : list JsValue) (s : State) :
  current_is OPEN s = false ->
  run opts (map CallSend ms) s = set_messageQueueRef (messageQueueRef s ++ ms) s.
Proof.
  revert s. induction ms as [|m ms IH]; intros s Hc.
  - destruct s; unfold run; simpl. by rewrite app_nil_r.
  - rewrite fmap_cons, run_cons, send_while_not_open by done.
    rewrite IH by (by destruct s).
    destruct s; simpl. by rewrite <- app_assoc.
Qed.

Lemma transmitted_all (h : nat) (q : list JsValue) (frames : list string) :
  Forall2 (fun m frame => JSON_stringify m = Some frame) q frames ->
  transmitted h q = map (ObsTransmit h) frames.
Proof.
  induction 1 as [|m frame q frames Hm _ IH]; [reflexivity|].
  unfold transmitted in *. cbn. rewrite Hm. cbn. by rewrite IH.
Qed.

Lemma open_flushes_queue (h : nat) (s : State) :
  is_ready h CONNECTING s = true ->
  installed onopen h s = true ->
  trace (step opts (SocketOpens h) s)
    = trace s ++ transmitted h (messageQueueRef s) ++ [ObsOnOpen]
  /\ messageQueueRef (step opts (SocketOpens h) s) = []
  /\ connected (step opts (SocketOpens h) s) = true.
Proof.
  intros Hr Hi. destruct s; simpl in *.
  unfold step, dispatch, dispatch_with, bind, get. rewrite Hr. unfold when, installed in *.
  simpl in *. rewrite Hi. unfold ws_onopen, ws_onopen_with, call, returning, bind, modify, get. simpl.
  rewrite forEach_flush. simpl.
  assert (Ho : is_ready h OPEN
                 (set_messageQueueRef []
                    (set_reconnectAttemptsRef 0
                       (setConnected true
                          (set_isConnectingRef false
                             (update_socket h (set_readyState OPEN)
                                (Build_State wsRef0 reconnectTimeoutRef0 reconnectAttemptsRef0
                                   urlRef0 connectRef0 isManualCloseRef0 isConnectingRef0
                                   messageQueueRef0 connected0 effectUrl0 effectTimer0
                                   sockets0 timers0 nextTimer0 trace0)))))) = true).
  { unfold is_ready, ready_at, socket_at, update_socket in *. simpl in *.
    rewrite list_lookup_alter. destruct (sockets0 !! h); simpl in *; [|done].
    by case_decide. }
  simpl in Ho. unfold update_socket in *. simpl in *. rewrite Ho. simpl.
  unfold emit. simpl. by rewrite <- app_assoc.
Qed.

(** C2, as the code has it.  Messages passed to [send] while [connected] is
    false and no Open transport is current are appended to the queue, in
    call order, and nothing is handed to the transport.  When a transport
    then opens, its [onopen] handler takes the whole queue, hands to the
    transport exactly the messages [JSON.stringify] encodes, in queue order
    and once each, then calls [onOpen]; the queue is empty afterwards, so a
    message whose encoding throws is dropped.  When every message encodes,
    the frames handed over are those of all the messages. *)
Theorem queued_messages_flushed_on_open (s : State) (h : nat) (ms : list JsValue) :
  connected s = false ->
  current_is OPEN s = false ->
  is_ready h CONNECTING s = true ->
  installed onopen h s = true ->
  let s1 := run opts (map CallSend ms) s in
  let s2 := step opts (SocketOpens h) s1 in
  s1 = set_messageQueueRef (messageQueueRef s ++ ms) s /\
  trace s2 = trace s ++ transmitted h (messageQueueRef s ++ ms) ++ [ObsOnOpen] /\
  messageQueueRef s2 = [] /\
  connected s2 = true /\
  (forall frames,
      Forall2 (fun m frame => JSON_stringify m = Some frame)
        (messageQueueRef s ++ ms) frames ->
      transmitted h (messageQueueRef s ++ ms) = map (ObsTransmit h) frames).
Proof.
  intros _ Hc Hr Hi s1 s2.
  assert (H1 : s1 = set_messageQueueRef (messageQueueRef s ++ ms) s)
    by (by apply sends_while_not_open).
  split; [exact H1|].
  destruct (open_flushes_queue h s1) as (Ht & Hq & Hco).
  - subst s1. rewrite H1. by destruct s.
  - subst s1. rewrite H1. by destruct s.
  - fold s2 in Ht, Hq, Hco. rewrite Ht, Hq, Hco, H1.
    repeat split; try (by destruct s).
    intros frames. apply transmitted_all.
Qed.

(** ** C3 *)

Lemma below_not_reached (n : nat) (l : Limit) :
  below_limit n l = true -> reached_limit n l = false.
Proof.
  destruct l as [m|]; simpl; [|done].
  intros H%Nat.ltb_lt. apply Nat.leb_gt. lia.
Qed.


(** The cap of the delay is the number 30000. *)
Lemma cap_is_finite : ms 30000 = S754_finite false 8246337208320000 (-38).
Proof. vm_compute. reflexivity. Qed.

Lemma real_of_cap : real_of (ms 30000) == 30000.
Proof. vm_compute. reflexivity. Qed.

(** [Math.min(x, 30000)] on a finite [x] is the smaller of the two reals. *)
Lemma Math_min_cap (x : Number) (v : Q) :
  has_value x v -> has_value (Math_min x (ms 30000)) (Qmin v 30000).
Proof.
  unfold has_value. intros Hx.
  assert (Hfin : num_value x = Some (real_of x)) by (by destruct x).
  rewrite Hfin in Hx.
  assert (Hcmp : num_compare x (ms 30000) = Some (Qcompare v 30000)).
  { rewrite cap_is_finite.
    destruct x; try discriminate; unfold num_compare; f_equal;
      apply Qcompare_comp; try exact Hx;
      rewrite <- cap_is_finite; apply real_of_cap. }
  unfold Math_min. rewrite Hcmp.
  destruct (Qcompare v 30000) eqn:Hc.
  - apply Qeq_alt in Hc.
    assert (Hy : num_value (ms 30000) = Some (real_of (ms 30000)))
      by (by rewrite cap_is_finite).
    destruct x as [[]| | |]; try discriminate; rewrite ?Hy, ?real_of_cap;
      symmetry; apply Q.min_r; rewrite Hc; apply Qle_refl.
  - apply Qlt_alt in Hc. rewrite Hfin, Hx.
    symmetry. apply Q.min_l. by apply Qlt_le_weak.
  - apply Qgt_alt in Hc.
    assert (Hy : num_value (ms 30000) = Some (real_of (ms 30000)))
      by (by rewrite cap_is_finite).
    rewrite Hy, real_of_cap. symmetry. apply Q.min_r. by apply Qlt_le_weak.
Qed.

(** Where the product is computed without rounding, the expression of the
    source and the formula of the specification denote the same number. *)
Lemma reconnect_delay_spec (b : Q) (n : nat) :
  computed_exactly opts b n ->
  has_value (reconnect_delay opts n) (spec_delay b n).
Proof.
  intros (Hb & Hp & Hv).
  apply Math_min_cap in Hv. unfold reconnect_delay, spec_delay.
  unfold has_value in *.
  destruct (num_value (Math_min _ _)) as [d|]; [|done].
  rewrite Hv. apply Q.min_compat; [|reflexivity].
  apply Qmult_comp; [reflexivity|].
  apply Qpower_comp; reflexivity.
Qed.

(** What [schedule_reconnect] does when its condition holds. *)
Lemma schedule_reconnect_allowed (body : TimerBody) (s : State) :
  retry_allowed opts s = true ->
  retry_scheduled opts body s (final (schedule_reconnect opts body s)).
Proof.
  intros Ha. destruct s; unfold retry_allowed, retry_scheduled in *; simpl in *.
  unfold schedule_reconnect, setTimeout, when, bind, modify, get. simpl.
  rewrite Ha. simpl.
  split; [reflexivity|].
  eexists nextTimer0, _; simpl.
  split; [reflexivity|].
  split; [by rewrite lookup_insert_eq|].
  split; reflexivity.
Qed.

(** C3, as the code has it.  On both retry paths the attempt counter is
    incremented first and the timer is scheduled with the value of
    [Math.min(reconnectInterval * Math.pow(1.5, n - 1), 30000)] in binary64
    arithmetic for the incremented counter [n]: in [ws.onclose] (state
    [sc], socket [h]) and in the catch branch of [connect], whenever
    [connect] gets as far as [new WebSocket] and that throws (state [sk]).
    Where the product is computed without rounding this is the real number
    [min(base * 1.5^(n-1), 30000)].  With [base = 3000], and [Math.pow]
    returning the power itself for the exponents up to 7, the delays of
    attempts 1, 2, 3 and 8 are 3000, 4500, 6750 and 30000 ms. *)
Theorem reconnect_delay_formula (sc : State) (h : nat) (sk : State) :
  retry_allowed opts sc = true ->
  retry_allowed opts sk = true ->
  isConnectingRef sk = false ->
  current_is OPEN sk = false ->
  current_is CONNECTING sk = false ->
  url_valid (default "" (urlRef sk)) = false ->
  retry_scheduled opts RetryAfterClose sc (final (ws_onclose opts h sc)) /\
  retry_scheduled opts RetryAfterCatch sk (final (connect opts sk)) /\
  (forall b n, computed_exactly opts b n ->
     has_value (reconnect_delay opts n) (spec_delay b n)) /\
  (reconnectInterval opts = ms 3000 ->
   (forall k, (k <= 7)%nat -> pow_exact_at k) ->
   reconnect_delay opts 1 = ms 3000 /\
   reconnect_delay opts 2 = ms 4500 /\
   reconnect_delay opts 3 = ms 6750 /\
   reconnect_delay opts 8 = ms 30000) /\
  spec_delay 3000 1 == 3000 /\
  spec_delay 3000 2 == 4500 /\
  spec_delay 3000 3 == 6750 /\
  spec_delay 3000 8 == 30000.
Proof.
  intros Hc Hk Hic Hop Hcn Hurl.
  split; [|split; [|split; [|split; [|by vm_compute]]]].
  - destruct sc; unfold retry_allowed, retry_scheduled in *; simpl in *.
    unfold ws_onclose, ws_onclose_with, call, returning, schedule_reconnect, setTimeout, when, bind, modify, get. simpl.
    destruct (bool_decide (wsRef0 = Some h)); simpl; rewrite Hc; simpl;
      (split; [reflexivity|]);
      eexists nextTimer0, _; simpl;
      (split; [reflexivity|]);
      (split; [by rewrite lookup_insert_eq|]);
      split; reflexivity.
  - destruct sk as [ws rto n u cr mc ic q c eu et sks tm nt tr].
    unfold retry_allowed, retry_scheduled in *; simpl in *; subst.
    assert (Hb : below_limit n (maxReconnectAttempts opts) = true).
    { repeat (apply andb_prop in Hk as [Hk ?]). done. }
    assert (Hm : mc = false).
    { repeat (apply andb_prop in Hk as [Hk ?]). by destruct mc. }
    assert (Hu : truthy u = true).
    { repeat (apply andb_prop in Hk as [Hk ?]). done. }
    subst. simpl in Hk. unfold connect, bind, get. simpl. rewrite Hu. simpl.
    unfold current_is in *. simpl in *.
    rewrite (below_not_reached _ _ Hb).
    destruct ws as [h0|]; simpl in *; rewrite ?Hop, ?Hcn; simpl;
      try destruct (is_ready h0 CLOSED _) eqn:Hcl; simpl;
      unfold open_transport, try_catch, new_WebSocket, schedule_reconnect, setTimeout, when,
        modify, get, bind, ret, update_socket; simpl; rewrite Hurl; simpl; rewrite Hk; simpl;
      (split; [reflexivity|]);
      eexists nt, _; simpl;
      (split; [reflexivity|]);
      (split; [by rewrite lookup_insert_eq|]);
      split; reflexivity.
  - intros b n. apply reconnect_delay_spec.
  - intros Hbase Hpow. unfold reconnect_delay. rewrite Hbase.
    pose proof (Hpow 0%nat ltac:(lia)) as H0.
    pose proof (Hpow 1%nat ltac:(lia)) as H1.
    pose proof (Hpow 2%nat ltac:(lia)) as H2.
    pose proof (Hpow 7%nat ltac:(lia)) as H7.
    unfold pow_exact_at in *.
    change (Z.of_nat 1 - 1)%Z with (Z.of_nat 0).
    change (Z.of_nat 2 - 1)%Z with (Z.of_nat 1).
    change (Z.of_nat 3 - 1)%Z with (Z.of_nat 2).
    change (Z.of_nat 8 - 1)%Z with (Z.of_nat 7).
    rewrite H0, H1, H2, H7.
    repeat split; vm_compute; reflexivity.
Qed.

(** ** C5 *)

Lemma connected_only_set_by_open (e : Event) (s : State) :
  connected s = false ->
  connected (step opts e s) = true ->
  exists h, e = SocketOpens h /\ is_ready h CONNECTING s = true /\ installed onopen h s = true.
Proof.
  intros Hc Ht. destruct s; simpl in *; subst.
  destruct e; try (exfalso; revert Ht; hook_cases; congruence).
  exists h. revert Ht. hook_cases; intros; try congruence; auto.
Qed.

(** C5, as the code has it.  [connected] goes from false to true in the
    [onopen] handler of a transport and nowhere else; [disconnect] and the
    [onclose] handler set it to false; the [onerror] handler leaves it as it
    is (line 137: the close event that follows is what clears it). *)
Theorem connected_signal_transitions (s : State) (e : Event) (h : nat) :
  (connected s = false -> connected (step opts e s) = true ->
   exists h', e = SocketOpens h' /\ is_ready h' CONNECTING s = true
              /\ installed onopen h' s = true) /\
  (is_ready h CONNECTING s = true -> installed onopen h s = true ->
   connected (step opts (SocketOpens h) s) = true) /\
  connected (step opts CallDisconnect s) = false /\
  (is_ready h CLOSED s = false -> installed onclose h s = true ->
   connected (step opts (SocketCloses h) s) = false) /\
  connected (step opts (SocketError h) s) = connected s.
Proof.
  split; [apply connected_only_set_by_open|].
  split; [intros Hr Hi; by apply open_flushes_queue|].
  split; [destruct s; hook_cases; reflexivity|].
  split.
  - intros Hr Hi. destruct s; simpl in *. revert Hr Hi.
    hook_cases; intros; try reflexivity; congruence.
  - destruct s; hook_cases; reflexivity.
Qed.

(** ** Turns under the manual-close flag, turns with the budget spent *)

Lemma manual_close_step (s : State) (e : Event) :
  isManualCloseRef s = true ->
  keeps_address e = true ->
  isManualCloseRef (step opts e s) = true
  /\ length (sockets (step opts e s)) = length (sockets s)
  /\ nextTimer (step opts e s) = nextTimer s.
Proof.
  intros Hm He. destruct s; simpl in *; subst.
  destruct e; try discriminate; hook_cases; rewrite ?length_alter; auto.
Qed.

Lemma manual_close_run (es : list Event) (s : State) :
  isManualCloseRef s = true ->
  forallb keeps_address es = true ->
  isManualCloseRef (run opts es s) = true
  /\ length (sockets (run opts es s)) = length (sockets s)
  /\ nextTimer (run opts es s) = nextTimer s.
Proof.
  revert s. induction es as [|e es IH]; intros s Hm Hes; [done|].
  apply andb_prop in Hes as [He Hes]. rewrite run_cons.
  destruct (manual_close_step s e Hm He) as (Hm' & Hl & Hn).
  destruct (IH _ Hm' Hes) as (? & ? & ?).
  repeat split; congruence.
Qed.

Lemma disconnect_sets_flag (s : State) :
  isManualCloseRef (final (disconnect s)) = true
  /\ length (sockets (final (disconnect s))) = length (sockets s)
  /\ nextTimer (final (disconnect s)) = nextTimer s.
Proof. destruct s; hook_cases; rewrite ?length_alter; auto. Qed.

Lemma forallb_alter {A} (P : A -> bool) (f : A -> A) (i : nat) (l : list A) :
  (forall x, P x = true -> P (f x) = true) ->
  forallb P l = true ->
  forallb P (alter f i l) = true.
Proof.
  intros Hf. revert i. induction l as [|x l IH]; intros i Hl; [done|].
  apply andb_prop in Hl as [Hx Hl].
  destruct i; simpl; apply andb_true_intro; split; auto.
  by apply IH.
Qed.

Lemma forallb_lookup {A} (P : A -> bool) (i : nat) (l : list A) (x : A) :
  forallb P l = true -> l !! i = Some x -> P x = true.
Proof.
  revert i. induction l as [|y l IH]; intros i Hl Hi; [done|].
  apply andb_prop in Hl as [Hy Hl].
  destruct i; simplify_eq/=; eauto.
Qed.

Lemma none_connecting_not_ready (h : nat) (s : State) :
  none_connecting s = true -> is_ready h CONNECTING s = false.
Proof.
  intros Hn. unfold is_ready, ready_at, socket_at, none_connecting in *.
  destruct (sockets s !! h) as [k|] eqn:Hk; [|done]. simpl.
  apply (forallb_lookup _ _ _ _ Hn) in Hk. by destruct (ReadyState_eqb _ _).
Qed.



(** ** What [disconnect] does *)


Lemma connect_refused_when_manual (s : State) :
  isManualCloseRef s = true ->
  connect opts s = Returns tt s.
Proof.
  intros Hm. destruct s; simpl in *; subst. hook_cases; reflexivity.
Qed.

Lemma timer_under_manual_close (id : nat) (s : State) :
  isManualCloseRef s = true ->
  sockets (step opts (TimerFires id) s) = sockets s
  /\ trace (step opts (TimerFires id) s) = trace s
  /\ connected (step opts (TimerFires id) s) = connected s.
Proof.
  intros Hm. destruct s; simpl in *; subst. hook_cases; auto.
Qed.

Lemma ready_after_disconnect (h : nat) (s : State) :
  wsRef s = Some h ->
  is_ready h CONNECTING (final (disconnect s)) = false
  /\ is_ready h OPEN (final (disconnect s)) = false
  /\ installed onopen h (final (disconnect s)) = false
  /\ installed onmessage h (final (disconnect s)) = false
  /\ installed onerror h (final (disconnect s)) = false
  /\ installed onclose h (final (disconnect s)) = false.
Proof.
  intros Hws. destruct s as [ws rto n u cr mc ic q c eu et sks tm nt tr]; simpl in *; subst.
  unfold disconnect, cancel_reconnect_timer, teardown_socket, clearTimeout, ws_close,
    when, modify, get, try_catch, bind, ret.
  unfold is_ready, installed, ready_at, socket_at, update_socket.
  destruct (sks !! h) as [k|] eqn:Hk.
  - destruct rto, (readyState k) eqn:Hr; simpl;
      repeat (progress (rewrite ?list_lookup_alter, ?Hk, ?Hr; simpl; repeat case_decide;
                        try done)); auto.
  - destruct rto; simpl;
      repeat (progress (rewrite ?list_lookup_alter, ?Hk; simpl; repeat case_decide;
                        try done)); auto.
Qed.

Lemma detached_socket_is_silent (h : nat) (e : Event) (s : State) :
  installed onopen h s = false ->
  installed onmessage h s = false ->
  installed onerror h s = false ->
  installed onclose h s = false ->
  on_socket h e = true ->
  step opts e s = set_sockets (sockets (step opts e s)) s.
Proof.
  intros Ho Hm He Hc Hon.
  destruct s as [ws rto n u cr mc ic q c eu et sks tm nt tr]; simpl in *.
  destruct e; try discriminate; apply Nat.eqb_eq in Hon; subst;
    revert Ho Hm He Hc; hook_cases; intros; try reflexivity;
    exfalso;
    repeat match goal with
           | H : _ && _ = true |- _ => apply andb_prop in H as [? ?]
           end;
    congruence.
Qed.

Lemma disconnect_frame (s : State) :
  returns (disconnect s) = true
  /\ callbacks (trace (final (disconnect s))) = callbacks (trace s)
  /\ connected (final (disconnect s)) = false
  /\ wsRef (final (disconnect s)) = None
  /\ reconnectTimeoutRef (final (disconnect s)) = None
  /\ messageQueueRef (final (disconnect s)) = messageQueueRef s
  /\ reconnectAttemptsRef (final (disconnect s)) = reconnectAttemptsRef s
  /\ urlRef (final (disconnect s)) = urlRef s.
Proof.
  destruct s as [ws rto n u cr mc ic q c eu et sks tm nt tr].
  hook_cases; unfold callbacks; rewrite ?List.filter_app; simpl; rewrite ?app_nil_r;
    repeat split; reflexivity.
Qed.

Lemma disconnect_clears_timer (id : nat) (s : State) :
  reconnectTimeoutRef s = Some id ->
  timers (final (disconnect s)) !! id = None.
Proof.
  intros Hid. destruct s as [ws rto n u cr mc ic q c eu et sks tm nt tr]; simpl in *; subst.
  hook_cases; apply lookup_delete_eq.
Qed.

(** ** What [disconnect] guarantees *)

(** [disconnect] returns normally; it cancels the reconnection timer
    [reconnectTimeoutRef] holds and forgets it, closes the current transport
    (afterwards it is neither Connecting nor Open) and drops the handle,
    and sets the manual-close flag; it does not touch the outbound queue,
    which keeps the messages it held.  From then on a timer that fires
    constructs nothing and leaves the trace as it is, and as long as the
    target address does not change no turn constructs a transport or
    schedules a timer. *)
Theorem disconnect_cancels_reconnection (s : State) (es : list Event) :
  forallb keeps_address es = true ->
  let s' := final (disconnect s) in
  returns (disconnect s) = true /\
  messageQueueRef s' = messageQueueRef s /\
  reconnectTimeoutRef s' = None /\
  (forall id, reconnectTimeoutRef s = Some id -> timers s' !! id = None) /\
  wsRef s' = None /\
  (forall h, wsRef s = Some h ->
             is_ready h CONNECTING s' = false /\ is_ready h OPEN s' = false) /\
  (forall id, sockets (step opts (TimerFires id) s') = sockets s'
              /\ trace (step opts (TimerFires id) s') = trace s') /\
  length (sockets (run opts es s')) = length (sockets s) /\
  nextTimer (run opts es s') = nextTimer s.
Proof.
  intros Hes s'.
  destruct (disconnect_frame s) as (Hret & _ & _ & Hws & Hto & Hq & _ & _).
  destruct (disconnect_sets_flag s) as (Hm & Hl & Hn).
  destruct (manual_close_run es s' Hm Hes) as (_ & Hl' & Hn').
  split; [exact Hret|]. split; [exact Hq|]. split; [exact Hto|].
  split; [intros id; apply disconnect_clears_timer|].
  split; [exact Hws|].
  split.
  { intros h Hh. destruct (ready_after_disconnect h s Hh) as (? & ? & _). by split. }
  split.
  { intros id. destruct (timer_under_manual_close id s' Hm) as (? & ? & _). by split. }
  unfold s' in *. split; congruence.
Qed.

(** ** C9 *)

(** C9.  After [disconnect], as long as the target address does not
    change, no turn of the event loop constructs a transport, and the
    manual-close flag stays set: [connect] itself returns at once under the
    flag, a retry timer or the mount timer that fires constructs nothing,
    no turn other than a change of address clears the flag (so [send] and
    [disconnect], the operations the hook returns, do not), and a change of
    address does clear it. *)
Theorem disconnect_is_permanent (s : State) (es : list Event) :
  forallb keeps_address es = true ->
  let s' := run opts es (final (disconnect s)) in
  isManualCloseRef s' = true /\
  length (sockets s') = length (sockets s) /\
  connect opts s' = Returns tt s' /\
  (forall id, sockets (step opts (TimerFires id) s') = sockets s') /\
  (forall e, keeps_address e = true -> isManualCloseRef (step opts e s') = true) /\
  (forall url, url <> effectUrl s' ->
               isManualCloseRef (step opts (UrlChanges url) s') = false).
Proof.
  intros Hes s'.
  destruct (disconnect_sets_flag s) as (Hm & Hl & Hn).
  destruct (manual_close_run es _ Hm Hes) as (Hm' & Hl' & Hn').
  fold s' in Hm', Hl', Hn'.
  split; [done|]. split; [congruence|].
  split; [by apply connect_refused_when_manual|].
  split; [intros id; by apply timer_under_manual_close|].
  split; [intros e He; by apply manual_close_step|].
  intros url Hurl. clearbody s'. clear -Hurl.
  destruct s' as [ws rto n u cr mc ic q c eu et sks tm nt tr]; simpl in *.
  unfold step, dispatch, dispatch_with, url_changes, bind, get. simpl.
  rewrite bool_decide_eq_false_2 by done.
  hook_cases; reflexivity.
Qed.

(** ** C10 *)

Lemma alter_torn_down (h : nat) (l : list Socket) :
  alter torn_down h l =
  match readyState <$> l !! h with
  | Some CONNECTING | Some OPEN => alter (set_readyState CLOSING) h (alter detach h l)
  | _ => alter detach h l
  end.
Proof.
  destruct (l !! h) as [k|] eqn:Hk; simpl.
  - destruct (readyState k) eqn:Hr;
      rewrite ?list_alter_alter_eq;
      (apply list_alter_ext; [|done]); intros x Hx; simplify_eq;
      unfold torn_down; by rewrite Hr.
  - apply list_eq. intros i. rewrite !list_lookup_alter.
    repeat case_decide; subst; rewrite ?Hk; done.
Qed.

(** The state [disconnect] leaves, cell by cell. *)
Lemma disconnect_state (s : State) :
  final (disconnect s) =
  {| wsRef := None; reconnectTimeoutRef := None;
     reconnectAttemptsRef := reconnectAttemptsRef s; urlRef := urlRef s;
     connectRef := connectRef s; isManualCloseRef := true; isConnectingRef := false;
     messageQueueRef := messageQueueRef s; connected := false;
     effectUrl := effectUrl s; effectTimer := effectTimer s;
     sockets := match wsRef s with
                | Some h => alter torn_down h (sockets s)
                | None => sockets s
                end;
     timers := match reconnectTimeoutRef s with
               | Some id => delete id (timers s)
               | None => timers s
               end;
     nextTimer := nextTimer s;
     trace := trace s ++ match wsRef s with
                         | Some h => if is_ready h CONNECTING s || is_ready h OPEN s
                                     then [ObsCloseCall h] else []
                         | None => []
                         end |}.
Proof.
  destruct s as [ws rto n u cr mc ic q c eu et sks tm nt tr]. simpl.
  destruct ws as [h|]; [rewrite alter_torn_down|];
    unfold disconnect, cancel_reconnect_timer, teardown_socket, clearTimeout, ws_close,
      when, modify, get, try_catch, bind, ret, is_ready, ready_at, socket_at,
      update_socket, emit;
    simpl.
  - destruct rto; simpl; rewrite ?list_lookup_alter; repeat case_decide; try done;
      destruct (sks !! h) as [k|] eqn:Hk; simpl; rewrite ?app_nil_r; try reflexivity;
      destruct (readyState k) eqn:Hr; simpl; rewrite ?list_lookup_alter;
      repeat case_decide; try done;
      rewrite ?Hk; simpl; rewrite ?Hr; simpl; rewrite ?app_nil_r; try reflexivity.
  - destruct rto; simpl; rewrite ?app_nil_r; reflexivity.
Qed.

(** C10.  [disconnect] calls none of the callbacks.  The state it leaves is
    given cell by cell: [connected] is false, the reconnection timer
    reference and the transport handle are dropped, the two flags are set;
    the queue, the attempt counter, the address and the closures of the
    main effect are as before.  Of the host, the pending timeouts lose the
    reconnection timer the reference held, and nothing else, and no timeout
    is scheduled; the transport that was current has its four handler slots
    emptied and is Closing if it was Connecting or Open, the other
    transports are untouched; the only effect added to the trace is that
    [close()] call.  With its slots emptied, whatever event that transport
    dispatches afterwards changes nothing in the hook but the readiness of
    that transport: no [onOpen], [onClose], [onError] or handler call. *)
Theorem manual_disconnect_is_silent (s : State) :
  let s' := final (disconnect s) in
  s' = {| wsRef := None; reconnectTimeoutRef := None;
          reconnectAttemptsRef := reconnectAttemptsRef s; urlRef := urlRef s;
          connectRef := connectRef s; isManualCloseRef := true; isConnectingRef := false;
          messageQueueRef := messageQueueRef s; connected := false;
          effectUrl := effectUrl s; effectTimer := effectTimer s;
          sockets := match wsRef s with
                     | Some h => alter torn_down h (sockets s)
                     | None => sockets s
                     end;
          timers := match reconnectTimeoutRef s with
                    | Some id => delete id (timers s)
                    | None => timers s
                    end;
          nextTimer := nextTimer s;
          trace := trace s ++ match wsRef s with
                              | Some h => if is_ready h CONNECTING s || is_ready h OPEN s
                                          then [ObsCloseCall h] else []
                              | None => []
                              end |} /\
  callbacks (trace s') = callbacks (trace s) /\
  connected s' = false /\
  wsRef s' = None /\
  reconnectTimeoutRef s' = None /\
  messageQueueRef s' = messageQueueRef s /\
  reconnectAttemptsRef s' = reconnectAttemptsRef s /\
  urlRef s' = urlRef s /\
  (forall h e,
      wsRef s = Some h ->
      on_socket h e = true ->
      installed onopen h s' = false /\
      installed onmessage h s' = false /\
      installed onerror h s' = false /\
      installed onclose h s' = false /\
      step opts e s' = set_sockets (sockets (step opts e s')) s').
Proof.
  intros s'.
  split; [apply disconnect_state|].
  destruct (disconnect_frame s) as (_ & Hcb & Hc & Hws & Hto & Hq & Ha & Hu).
  repeat (split; [done|]).
  intros h e Hh He.
  destruct (ready_after_disconnect h s Hh) as (_ & _ & Ho & Hm & Her & Hcl).
  repeat (split; [done|]).
  by apply (detached_socket_is_silent h).
Qed.

(** ** C8 *)


End Properties.

(** * The properties on concrete runs *)

(** C7 on [open_state]: transport 0 is current and Open. *)
Lemma connect_twice_is_noop_witness :
  connect (rt := sample_runtime) default_options open_state = Returns tt open_state.
Proof.
  apply (connect_twice_is_noop (rt := sample_runtime) default_options open_state 0).
  - vm_compute; reflexivity.
  - left; vm_compute; reflexivity.
Defined.

(** C4 on [open_state]: the message cannot be encoded, it is queued. *)
Lemma send_never_raises_and_requeues_witness :
  returns (send (rt := sample_runtime) unencodable open_state) = true /\
  final (send (rt := sample_runtime) unencodable open_state) = enqueue unencodable open_state.
Proof.
  destruct (send_never_raises_and_requeues (rt := sample_runtime) open_state unencodable)
    as [Hret Hq].
  split; [exact Hret|].
  apply (Hq 0); vm_compute; reflexivity.
Defined.

(** C6 on [open_state]: a truncated frame, then two good ones. *)
Lemma undecodable_frame_is_skipped_witness :
  step (rt := sample_runtime) default_options (SocketMessage 0 "{oops") open_state = open_state /\
  run (rt := sample_runtime) default_options
    (map (SocketMessage 0) ["{oops"; "null"; "true"]) open_state
  = set_trace (trace open_state ++ [ObsHandler JNull; ObsHandler (JBool true)]) open_state.
Proof.
  apply (undecodable_frame_is_skipped (rt := sample_runtime) default_options open_state 0
           "{oops" ["null"; "true"]); vm_compute; reflexivity.
Defined.

(** C2, as stated, fails: of two messages queued while Connecting, the one
    [JSON.stringify] throws on never reaches the transport, and it is not
    kept in the queue either. *)
Lemma queued_messages_all_flushed_counterexample :
  connected connecting_state = false /\
  JSON_stringify (Runtime := sample_runtime) unencodable = None /\
  trace (run (rt := sample_runtime) default_options
           [CallSend ping; CallSend unencodable; SocketOpens 0] connecting_state)
  = [ObsConstruct 0 "wss://feed.example/ws"; ObsTransmit 0 ping_frame; ObsOnOpen] /\
  messageQueueRef (run (rt := sample_runtime) default_options
                     [CallSend ping; CallSend unencodable; SocketOpens 0] connecting_state)
  = [].
Proof. vm_compute. repeat split; reflexivity. Qed.

(** C2, as the code has it, on [connecting_state] with two messages. *)
Lemma queued_messages_flushed_on_open_witness :
  trace (step (rt := sample_runtime) default_options (SocketOpens 0)
           (run (rt := sample_runtime) default_options
              (map CallSend [ping; unencodable]) connecting_state))
  = trace connecting_state
    ++ transmitted (rt := sample_runtime) 0 (messageQueueRef connecting_state ++ [ping; unencodable])
    ++ [ObsOnOpen].
Proof.
  destruct (queued_messages_flushed_on_open (rt := sample_runtime) default_options
              connecting_state 0 [ping; unencodable]) as (_ & Ht & _);
    [vm_compute; reflexivity ..|exact Ht].
Defined.

(** C3, as stated, fails: with an interval of 0.1 ms, two connection
    attempts fail in a row; the second retry is scheduled with the rounded
    product [0.1 * 1.5], which is neither [min(base * 1.5, 30000)] for the
    number [base] the interval is, nor for one tenth. *)
Lemma reconnect_delay_rounds_counterexample :
  reconnectAttemptsRef rounded_state = 2 /\
  Qred <$> num_value (reconnectInterval tenth_interval)
  = Some (3602879701896397 # 36028797018963968) /\
  Math_pow (Runtime := sample_runtime) one_and_a_half (ms 1) = one_and_a_half /\
  delay_of 3 rounded_state = Some (1351079888211149 # 9007199254740992) /\
  Qred (spec_delay (3602879701896397 # 36028797018963968) 2)
  = 10808639105689191 # 72057594037927936 /\
  ~ (1351079888211149 # 9007199254740992
     == spec_delay (3602879701896397 # 36028797018963968) 2) /\
  ~ (1351079888211149 # 9007199254740992 == spec_delay (1 # 10) 2).
Proof.
  split; [vm_compute; reflexivity|].
  split; [vm_compute; reflexivity|].
  split; [vm_compute; reflexivity|].
  split; [vm_compute; reflexivity|].
  split; [vm_compute; reflexivity|].
  split; vm_compute; discriminate.
Qed.

(** C3, as the code has it, on [open_state] (close path) and
    [rejected_state] (catch path), with the default interval. *)
Lemma reconnect_delay_formula_witness :
  retry_scheduled (rt := sample_runtime) default_options RetryAfterClose open_state
    (final (ws_onclose (rt := sample_runtime) default_options 0 open_state)) /\
  retry_scheduled (rt := sample_runtime) default_options RetryAfterCatch rejected_state
    (final (connect (rt := sample_runtime) default_options rejected_state)) /\
  has_value (reconnect_delay (rt := sample_runtime) default_options 2) (spec_delay 3000 2) /\
  reconnect_delay (rt := sample_runtime) default_options 8 = ms 30000.
Proof.
  destruct (reconnect_delay_formula (rt := sample_runtime) default_options open_state 0
              rejected_state) as (Hc & Hk & Hx & He & _);
    [vm_compute; reflexivity ..|].
  split; [exact Hc|]. split; [exact Hk|]. split.
  - apply Hx. vm_compute. repeat split; reflexivity.
  - apply He; [reflexivity|].
    intros k Hk'.
    do 8 (destruct k as [|k]; [vm_compute; reflexivity|]). lia.
Defined.

(** C5, as stated, fails: an error event on the open transport leaves
    [connected] true. *)
Lemma error_event_keeps_connected_counterexample :
  connected open_state = true /\
  is_ready 0 OPEN open_state = true /\
  installed onerror 0 open_state = true /\
  connected (step (rt := sample_runtime) default_options (SocketError 0) open_state) = true.
Proof. vm_compute. repeat split; reflexivity. Qed.

(** C5, as the code has it, on [connecting_state]. *)
Lemma connected_signal_transitions_witness :
  connected (step (rt := sample_runtime) default_options (SocketOpens 0) connecting_state) = true /\
  connected (step (rt := sample_runtime) default_options (SocketCloses 0) connecting_state) = false.
Proof.
  destruct (connected_signal_transitions (rt := sample_runtime) default_options
              connecting_state (SocketOpens 0) 0) as (_ & Hopen & _ & Hclose & _).
  split; [apply Hopen|apply Hclose]; vm_compute; reflexivity.
Defined.

(** C1.  What the code does where the claim says otherwise.  A message
    queued before [disconnect] is still in the queue after it, and after a
    change of address it is the first frame sent to the transport of the
    new address.  And [disconnect] cancels only the timer
    [reconnectTimeoutRef] holds: in [two_timers_state] that is timer 4, the
    older retry timer 2 stays pending, and when it fires after a change of
    address it constructs a transport. *)
Theorem disconnect_leaves_queue_and_older_timer :
  messageQueueRef (run (rt := sample_runtime) default_options
                     [CallSend ping; CallDisconnect] connecting_state) = [ping] /\
  trace (run (rt := sample_runtime) default_options
           [CallSend ping; CallDisconnect; UrlChanges other; TimerFires 2; SocketOpens 1]
           connecting_state)
  = [ObsConstruct 0 "wss://feed.example/ws"; ObsCloseCall 0;
     ObsConstruct 1 "wss://other.example/ws"; ObsTransmit 1 ping_frame; ObsOnOpen] /\
  reconnectTimeoutRef two_timers_state = Some 4 /\
  timer_body <$> timers two_timers_state !! 2 = Some RetryAfterClose /\
  timer_body <$> timers two_timers_state !! 4 = Some RetryAfterCatch /\
  timers (final (disconnect two_timers_state)) !! 4 = None /\
  timer_body <$> timers (final (disconnect two_timers_state)) !! 2 = Some RetryAfterClose /\
  trace (run (rt := sample_runtime) default_options
           [UrlChanges other; TimerFires 2] (final (disconnect two_timers_state)))
  = trace two_timers_state ++ [ObsConstruct 1 "wss://other.example/ws"].
Proof. vm_compute. repeat split; reflexivity. Qed.

(** On [exhausted_state]: the retry timer is cancelled, and firing the
    timers afterwards constructs nothing. *)
Lemma disconnect_cancels_reconnection_witness :
  timers (final (disconnect exhausted_state)) !! 4 = None /\
  length (sockets (run (rt := sample_runtime) three_attempts
                     [TimerFires 4; CallSend ping; TimerFires 1]
                     (final (disconnect exhausted_state))))
  = length (sockets exhausted_state).
Proof.
  destruct (disconnect_cancels_reconnection (rt := sample_runtime) three_attempts
              exhausted_state [TimerFires 4; CallSend ping; TimerFires 1])
    as (_ & _ & _ & Hid & _ & _ & _ & Hlen & _); [vm_compute; reflexivity|].
  split; [apply Hid; vm_compute; reflexivity|exact Hlen].
Defined.

(** C9 on [open_state]: timers, sends and transport events after
    [disconnect] construct nothing. *)
Lemma disconnect_is_permanent_witness :
  isManualCloseRef (run (rt := sample_runtime) default_options
                      [SocketCloses 0; TimerFires 1; TimerFires 2; CallSend ping]
                      (final (disconnect open_state))) = true /\
  length (sockets (run (rt := sample_runtime) default_options
                     [SocketCloses 0; TimerFires 1; TimerFires 2; CallSend ping]
                     (final (disconnect open_state))))
  = length (sockets open_state).
Proof.
  destruct (disconnect_is_permanent (rt := sample_runtime) default_options open_state
              [SocketCloses 0; TimerFires 1; TimerFires 2; CallSend ping])
    as (Hm & Hl & _); [vm_compute; reflexivity|].
  split; [exact Hm|exact Hl].
Defined.

(** C10 on [open_state]: the close event of the transport that was
    disconnected changes nothing but that transport; and on
    [exhausted_state], where a retry timer is pending: it is gone. *)
Lemma manual_disconnect_is_silent_witness :
  timers (final (disconnect exhausted_state)) = delete 4 (timers exhausted_state) /\
  trace (final (disconnect open_state)) = trace open_state ++ [ObsCloseCall 0] /\
  callbacks (trace (final (disconnect open_state))) = callbacks (trace open_state) /\
  step (rt := sample_runtime) default_options (SocketCloses 0) (final (disconnect open_state))
  = set_sockets
      (sockets (step (rt := sample_runtime) default_options (SocketCloses 0)
                  (final (disconnect open_state))))
      (final (disconnect open_state)).
Proof.
  destruct (manual_disconnect_is_silent (rt := sample_runtime) three_attempts exhausted_state)
    as (Hex & _).
  destruct (manual_disconnect_is_silent (rt := sample_runtime) default_options open_state)
    as (Hst & Hcb & _ & _ & _ & _ & _ & _ & Hev).
  split; [by rewrite Hex|].
  split; [by rewrite Hst|].
  split; [exact Hcb|].
  destruct (Hev 0 (SocketCloses 0)) as (_ & _ & _ & _ & Hstep);
    [vm_compute; reflexivity|vm_compute; reflexivity|exact Hstep].
Defined.



(** * The numbers of the examples

    [tenth] is within half a unit in the last place of one tenth, and the
    comparison by value agrees with the one of the Standard Library on the
    numbers the examples compare. *)
Example tenth_is_nearest : (Qabs (real_of tenth - (1 # 10)) <= 2 ^ (-57))%Q.
Proof. vm_compute. discriminate. Qed.

Example integers_are_exact :
  Qred <$> num_value (ms 3000) = Some (3000 # 1) /\
  Qred <$> num_value (ms 30000) = Some (30000 # 1) /\
  Qred <$> num_value one_and_a_half = Some (3 # 2) /\
  Qred <$> num_value (ms 6750) = Some (6750 # 1).
Proof. vm_compute. repeat split; reflexivity. Qed.

Example comparison_agrees :
  num_compare (num_mul tenth one_and_a_half) (ms 30000)
  = SFcompare (num_mul tenth one_and_a_half) (ms 30000) /\
  num_compare (num_mul (ms 3000) (dyadic 2187 (-7))) (ms 30000)
  = SFcompare (num_mul (ms 3000) (dyadic 2187 (-7))) (ms 30000) /\
  num_compare (ms 4500) (ms 30000) = SFcompare (ms 4500) (ms 30000).
Proof. vm_compute. repeat split; reflexivity. Qed.

(** * The hook at work

    A session on [feed] with the default options: the mount timer connects,
    two messages sent while Connecting are flushed on open, a frame is
    delivered, the peer closes, and the first retry is scheduled 3000 ms
    later. *)
Example session_trace :
  trace (run (rt := sample_runtime) default_options
           [TimerFires 1; CallSend ping; CallSend JNull; SocketOpens 0;
            SocketMessage 0 "true"; SocketCloses 0]
           (mounted feed))
  = [ObsConstruct 0 "wss://feed.example/ws"; ObsTransmit 0 ping_frame;
     ObsTransmit 0 "null"; ObsOnOpen; ObsHandler (JBool true); ObsOnClose].
Proof. vm_compute. reflexivity. Qed.

Example session_retry :
  timers (run (rt := sample_runtime) default_options
            [TimerFires 1; SocketOpens 0; SocketCloses 0] (mounted feed))
  = {[ 2 := {| timer_delay := ms 3000; timer_body := RetryAfterClose |} ]}.
Proof. vm_compute. reflexivity. Qed.

(** The third retry in a row waits 3000 * 1.5 * 1.5 = 6750 ms; with a budget of three
    it is the last one scheduled, and when it fires [connect] refuses. *)
Example third_retry_delay :
  timer_delay <$> timers exhausted_state !! 4 = Some (ms 6750) /\
  reconnectAttemptsRef exhausted_state = 3 /\
  step (rt := sample_runtime) three_attempts (TimerFires 4) exhausted_state
  = set_timers ∅ exhausted_state.
Proof. vm_compute. repeat split; reflexivity. Qed.

(** An address the host rejects: the catch branch schedules the retry. *)
Example rejected_address_retries :
  let s := run (rt := sample_runtime) default_options [TimerFires 1] rejected_state in
  sockets s = [] /\ connected s = false /\ reconnectAttemptsRef s = 1 /\
  timers s = {[ 2 := {| timer_delay := ms 3000; timer_body := RetryAfterCatch |} ]}.
Proof. vm_compute. repeat split; reflexivity. Qed.

(** A change of address while Open: the clean-up closure sees the address
    it captured still in [urlRef], tears nothing down, and the mount timer
    of the new effect finds the old transport Open. *)
Example address_change_keeps_open_transport :
  let s := run (rt := sample_runtime) default_options
             [UrlChanges (Some "wss://other.example/ws"); TimerFires 2] open_state in
  wsRef s = Some 0 /\ length (sockets s) = 1 /\ connected s = true.
Proof. vm_compute. repeat split; reflexivity. Qed.

(** * Further properties of the hook *)

Section FurtherProperties.

Context {rt : Runtime} (opts : Options).

Ltac hook_unfold :=
  unfold step, dispatch, dispatch_with, run_timer, url_changes, main_effect,
    main_effect_cleanup, effect_teardown, disconnect, send, connect, open_transport,
    ws_onclose, ws_onerror, ws_onmessage, ws_onopen, ws_onclose_with, ws_onerror_with,
    ws_onmessage_with, ws_onopen_with, call, returning,
    schedule_reconnect, cancel_reconnect_timer,
    teardown_socket, transmit, clearTimeout, setTimeout, parse, stringify,
    ws_close, ws_send, new_WebSocket, when, modify, get, try_catch, bind, throw, ret,
    retry_allowed, current_is, installed, is_ready, ready_at, socket_at, update_socket,
    enqueue, emit in *.
Ltac bool_tidy :=
  rewrite ?orb_true_r, ?andb_false_r, ?andb_true_r, ?orb_false_r in *; simpl in *.
Ltac hook_split :=
  repeat (first [rewrite forEach_flush | case_match]; simpl in *; bool_tidy; simplify_eq).
Ltac hook_cases := hook_unfold; simpl in *; bool_tidy; hook_split; cbn.

(** ** Nothing is thrown out of the hook *)

(** A turn in which a transport opens, or reports an error, ends with the
    call of the callback: what the callback does is what the turn does. *)
Lemma open_turn (cb : Callbacks) (h : nat) (s : State) :
  is_ready h CONNECTING s = true ->
  installed onopen h s = true ->
  dispatch_with opts cb (SocketOpens h) s = onOpen cb (before_onOpen h s).
Proof.
  intros Hr Hi. destruct s as [ws rto n u cr mc ic q c eu et sks tm nt tr].
  unfold dispatch_with, ws_onopen_with, call, before_onOpen, bind, get, when, modify. simpl.
  rewrite Hr, Hi. simpl. rewrite forEach_flush. simpl.
  unfold is_ready, ready_at, socket_at, update_socket, emit in *. simpl in *.
  rewrite list_lookup_alter_eq. destruct (sks !! h) as [k|]; [|done]. simpl.
  destruct (onOpen cb _); reflexivity.
Qed.

Lemma error_turn (cb : Callbacks) (h : nat) (s : State) :
  installed onerror h s = true ->
  dispatch_with opts cb (SocketError h) s = onError cb (before_onError s).
Proof.
  intros Hi. destruct s as [ws rto n u cr mc ic q c eu et sks tm nt tr].
  unfold dispatch_with, ws_onerror_with, call, before_onError, bind, get, when, modify. simpl.
  rewrite Hi. simpl. destruct (onError cb _); reflexivity.
Qed.

(** When [onClose] throws, the turn ends there: lines 155-185 do not run. *)
Lemma close_turn_throws (cb : Callbacks) (h : nat) (s : State) (x : Exn) (s2 : State) :
  is_ready h CLOSED s = false ->
  installed onclose h s = true ->
  onClose cb (before_onClose h s) = Throws x s2 ->
  dispatch_with opts cb (SocketCloses h) s = Throws x s2.
Proof.
  intros Hr Hi Hx. destruct s as [ws rto n u cr mc ic q c eu et sks tm nt tr].
  unfold dispatch_with, ws_onclose_with, call, before_onClose, bind, get, when, modify in *.
  unfold is_ready, installed, ready_at, socket_at, update_socket, emit in *. simpl in *.
  destruct (sks !! h) as [k|]; [|done]. simpl in *.
  destruct (readyState k); simpl in *; try done; rewrite Hi; cbn; by rewrite Hx.
Qed.

(** A turn that throws is a transport event whose callback threw. *)
Lemma throwing_turn (cb : Callbacks) (e : Event) (s : State) :
  returns (dispatch_with opts cb e s) = false ->
  exists h,
    (e = SocketOpens h /\ returns (onOpen cb (before_onOpen h s)) = false) \/
    (e = SocketError h /\ returns (onError cb (before_onError s)) = false) \/
    (e = SocketCloses h /\ returns (onClose cb (before_onClose h s)) = false).
Proof.
  intros Ht. destruct e as [m| |id|h|h raw|h|h|h|url|];
    try (exfalso; revert Ht;
         match goal with
         | |- returns (dispatch_with _ _ ?e _) = false -> False =>
             change (returns (dispatch opts e s) = false -> False)
         end;
         rewrite dispatch_returns; discriminate).
  - exists h. left. split; [done|].
    destruct (is_ready h CONNECTING s) eqn:Hr, (installed onopen h s) eqn:Hi.
    + by rewrite <- open_turn.
    + exfalso. revert Ht. unfold dispatch_with, bind, get, when, modify. rewrite Hr, Hi. done.
    + exfalso. revert Ht. unfold dispatch_with, bind, get, when, modify. rewrite Hr. done.
    + exfalso. revert Ht. unfold dispatch_with, bind, get, when, modify. rewrite Hr. done.
  - exfalso. revert Ht.
    unfold dispatch_with, ws_onmessage_with, call, try_catch, bind, get, when, modify, parse.
    destruct (_ && _); [|done]. destruct (JSON_parse raw); [|done].
    by destruct (handler cb _ _).
  - exists h. right. left. split; [done|].
    destruct (installed onerror h s) eqn:Hi.
    + by rewrite <- (error_turn cb h).
    + exfalso. revert Ht. unfold dispatch_with, bind, get, when. by rewrite Hi.
  - exists h. right. right. split; [done|].
    destruct (onClose cb (before_onClose h s)) as [a s2|x s2] eqn:Hx; [|done].
    exfalso. revert Ht. destruct s as [ws rto n u cr mc ic q c eu et sks tm nt tr].
    unfold dispatch_with, ws_onclose_with, call, before_onClose, bind, get, when, modify in *.
    unfold is_ready, installed, ready_at, socket_at, update_socket, emit in *. simpl in *.
    destruct (sks !! h) as [k|]; [|done]. simpl in *.
    destruct (readyState k), (onclose k); simpl in *; try done; cbn; rewrite Hx;
      destruct a; simpl; destruct (bool_decide _); simpl;
      unfold schedule_reconnect, setTimeout, when, bind, get, modify, ret; simpl;
      by destruct (_ && _).
Qed.

(** X1.  What the hook calls inside a [try] never throws out of it:
    [send], [disconnect] and [connect] return normally in every state
    ([new WebSocket], [ws.send], [JSON.stringify] are caught), and so does
    the turn of an inbound frame, whatever [JSON.parse] and the message
    handler do.  The callbacks [onOpen], [onError] and [onClose] run
    outside any [try] (lines 122, 138, 153): a turn throws exactly when it
    is a transport event whose callback throws.  The callback is the last
    statement of [ws.onopen] and of [ws.onerror], so those turns end as the
    callback ends; when [onClose] throws, the turn ends with its exception
    in the state the callback left, and the clean-up and the retry of
    lines 155-185 do not run.  With callbacks that return, no turn
    throws. *)
Theorem hook_never_throws (cb : Callbacks) (e : Event) (s : State) :
  returns (dispatch opts e s) = true /\
  returns (connect opts s) = true /\
  (forall m, returns (send m s) = true) /\
  returns (disconnect s) = true /\
  (forall h raw, returns (dispatch_with opts cb (SocketMessage h raw) s) = true) /\
  (returns (dispatch_with opts cb e s) = false ->
   exists h,
     (e = SocketOpens h /\ returns (onOpen cb (before_onOpen h s)) = false) \/
     (e = SocketError h /\ returns (onError cb (before_onError s)) = false) \/
     (e = SocketCloses h /\ returns (onClose cb (before_onClose h s)) = false)) /\
  (forall h, is_ready h CONNECTING s = true -> installed onopen h s = true ->
             dispatch_with opts cb (SocketOpens h) s = onOpen cb (before_onOpen h s)) /\
  (forall h, installed onerror h s = true ->
             dispatch_with opts cb (SocketError h) s = onError cb (before_onError s)) /\
  (forall h x s2, is_ready h CLOSED s = false -> installed onclose h s = true ->
                  onClose cb (before_onClose h s) = Throws x s2 ->
                  dispatch_with opts cb (SocketCloses h) s = Throws x s2).
Proof.
  split; [apply dispatch_returns|].
  split; [destruct s; hook_cases; reflexivity|].
  split; [intros m; apply (dispatch_returns opts (CallSend m))|].
  split; [apply (dispatch_returns opts CallDisconnect)|].
  split.
  { intros h raw.
    destruct (returns (dispatch_with opts cb (SocketMessage h raw) s)) eqn:Hr; [done|].
    apply throwing_turn in Hr as (h' & [[? _]|[[? _]|[? _]]]); discriminate. }
  split; [apply throwing_turn|].
  split; [intros h; apply open_turn|].
  split; [intros h; apply error_turn|].
  intros h x s2. apply close_turn_throws.
Qed.

(** ** The attempt counter *)

(** X2.  The attempt counter is back at zero after a transport opened, and
    after a change of the address, which also clears the manual-close flag
    and stores the new address. *)
Theorem attempt_counter_resets (s : State) (h : nat) (url : option string) :
  (is_ready h CONNECTING s = true -> installed onopen h s = true ->
   reconnectAttemptsRef (step opts (SocketOpens h) s) = 0
   /\ isConnectingRef (step opts (SocketOpens h) s) = false) /\
  (url <> effectUrl s ->
   reconnectAttemptsRef (step opts (UrlChanges url) s) = 0
   /\ isManualCloseRef (step opts (UrlChanges url) s) = false
   /\ urlRef (step opts (UrlChanges url) s) = url).
Proof.
  split.
  - intros Hr Hi. destruct s; simpl in *. revert Hr Hi.
    hook_cases; intros; try done; congruence.
  - intros Hu. destruct s; simpl in *.
    unfold step, dispatch, dispatch_with, url_changes, bind, get. simpl.
    rewrite bool_decide_eq_false_2 by done.
    hook_cases; done.
Qed.

Lemma counter_bounded_step (m : nat) (e : Event) (s : State) :
  maxReconnectAttempts opts = Finite m ->
  reconnectAttemptsRef s <= m ->
  reconnectAttemptsRef (step opts e s) <= m.
Proof.
  intros Hmax Hle. destruct s; simpl in *.
  destruct e; hook_unfold; rewrite ?Hmax; simpl in *; bool_tidy; hook_split; cbn;
    try lia;
    repeat match goal with
           | H : _ && _ = true |- _ => apply andb_prop in H as [? ?]
           | H : Nat.ltb _ _ = true |- _ => apply Nat.ltb_lt in H
           end; lia.
Qed.

(** X3.  With a finite [maxReconnectAttempts] the attempt counter never
    exceeds it, in any state the hook reaches from its mount. *)
Theorem attempt_counter_bounded (m : nat) (url : option string) (es : list Event) :
  maxReconnectAttempts opts = Finite m ->
  reconnectAttemptsRef (run opts es (mounted url)) <= m.
Proof.
  intros Hmax.
  assert (H0 : reconnectAttemptsRef (mounted url) <= m).
  { unfold mounted, main_effect, setTimeout, bind, modify, get. simpl.
    destruct (truthy url); simpl; lia. }
  revert H0. generalize (mounted url). induction es as [|e es IH]; intros s Hs; [done|].
  rewrite run_cons. apply IH. by apply counter_bounded_step.
Qed.

(** ** An involuntary close *)

(** X4.  When a transport with its [onclose] handler installed closes:
    the transport is Closed, [connected] and the connecting flag are false,
    the outbound queue is emptied, [onClose] is called once and nothing
    else is observable, the handle is dropped exactly when it is the
    current one, and no transport is constructed in that turn. *)
Theorem involuntary_close_resets (s : State) (h : nat) :
  is_ready h CLOSED s = false ->
  installed onclose h s = true ->
  let s' := step opts (SocketCloses h) s in
  is_ready h CLOSED s' = true /\
  connected s' = false /\
  isConnectingRef s' = false /\
  messageQueueRef s' = [] /\
  trace s' = trace s ++ [ObsOnClose] /\
  wsRef s' = (if bool_decide (wsRef s = Some h) then None else wsRef s) /\
  length (sockets s') = length (sockets s).
Proof.
  intros Hr Hi.
  destruct s as [ws rto n u cr mc ic q c eu et sks tm nt tr]; simpl in *.
  unfold is_ready, installed, ready_at, socket_at in *. simpl in *.
  destruct (sks !! h) as [k|] eqn:Hk; [|done]. simpl in *.
  unfold step, dispatch, dispatch_with, bind, get, ready_at, socket_at. simpl. rewrite Hk. simpl.
  assert (Hlook : alter (set_readyState CLOSED) h sks !! h = Some (set_readyState CLOSED k)).
  { rewrite list_lookup_alter, Hk. by case_decide. }
  destruct (readyState k) eqn:Hrs; try done;
    unfold when, installed, socket_at, modify, update_socket, bind; simpl; rewrite Hk, Hi;
    unfold ws_onclose, ws_onclose_with, call, returning, schedule_reconnect, setTimeout, when, bind, modify, get, emit; simpl;
    destruct (bool_decide (ws = Some h)); simpl;
    destruct (negb mc && reconnect opts && truthy u && cr
              && below_limit n (maxReconnectAttempts opts)); simpl;
    unfold is_ready, ready_at, socket_at; simpl; rewrite Hlook, ?length_alter; simpl;
    repeat split; reflexivity.
Qed.

(** ** Sending while Open *)

Lemma send_while_open (h : nat) (m : JsValue) (s : State) :
  wsRef s = Some h ->
  is_ready h OPEN s = true ->
  step opts (CallSend m) s =
  match JSON_stringify m with
  | Some frame => emit (ObsTransmit h frame) s
  | None => enqueue m s
  end.
Proof.
  intros Hws Hr.
  destruct s as [ws rto n u cr mc ic q c eu et sks tm nt tr]; simpl in *; subst.
  unfold is_ready, ready_at, socket_at in Hr. simpl in Hr.
  destruct (sks !! h) as [k|] eqn:Hk; [|done]. simpl in Hr.
  destruct (readyState k) eqn:Hrs; try done.
  unfold step, dispatch, dispatch_with, send, transmit, stringify, ws_send, try_catch, when, bind, modify,
    get, is_ready, ready_at, socket_at. simpl. rewrite Hk. simpl. rewrite Hrs. simpl.
  destruct (JSON_stringify m); simpl; rewrite ?Hk; simpl; rewrite ?Hrs; reflexivity.
Qed.

(** X5.  While the current transport is Open, a run of [send] calls hands
    the messages [JSON.stringify] encodes to the transport, in call order,
    and appends to the queue, in call order, exactly those it throws on;
    nothing else changes. *)
Theorem sends_while_open (h : nat) (ms : list JsValue) (s : State) :
  wsRef s = Some h ->
  is_ready h OPEN s = true ->
  run opts (map CallSend ms) s =
  set_trace (trace s ++ transmitted h ms)
    (set_messageQueueRef (messageQueueRef s ++ rejected_by_stringify ms) s).
Proof.
  revert s. induction ms as [|m ms IH]; intros s Hws Hr.
  - destruct s; unfold run; simpl. by rewrite !app_nil_r.
  - rewrite fmap_cons, run_cons, (send_while_open h) by done.
    unfold transmitted, rejected_by_stringify in *. cbn [omap List.filter].
    destruct (JSON_stringify m) as [frame|] eqn:Hm.
    + rewrite IH by (destruct s; simpl in *; done).
      destruct s as [ws rto n u cr mc ic q c eu et sks tm nt tr]; simpl.
      rewrite <- ?app_assoc. simpl. rewrite ?Hm. reflexivity.
    + rewrite IH by (destruct s; simpl in *; done).
      destruct s as [ws rto n u cr mc ic q c eu et sks tm nt tr]; simpl.
      rewrite <- ?app_assoc. simpl. rewrite ?Hm. reflexivity.
Qed.

(** ** [connect] from the disconnected state *)

(** X6.  From the disconnected state (no handle, not connecting, flag
    clear, budget left) with an address [new WebSocket] accepts, [connect]
    constructs exactly one transport for that address, installs the four
    handlers on it, makes it the current one and sets the connecting flag;
    nothing else changes. *)
Theorem connect_constructs_one_transport (s : State) (url : string) :
  urlRef s = Some url ->
  url <> "" ->
  isManualCloseRef s = false ->
  wsRef s = None ->
  isConnectingRef s = false ->
  reached_limit (reconnectAttemptsRef s) (maxReconnectAttempts opts) = false ->
  url_valid url = true ->
  connect opts s =
  Returns tt
    (set_isConnectingRef true
       (set_wsRef (Some (length (sockets s)))
          (emit (ObsConstruct (length (sockets s)) url)
             (set_sockets (sockets s ++ [connecting_socket_for url]) s)))).
Proof.
  intros Hu Hne Hm Hws Hic Hlim Hv.
  destruct s as [ws rto n u cr mc ic q c eu et sks tm nt tr]; simpl in *; subst.
  assert (Ht : negb (String.eqb url "") = true).
  { apply negb_true_iff. by apply String.eqb_neq. }
  unfold connect, current_is, open_transport, new_WebSocket, try_catch, bind, modify, get,
    update_socket, emit, truthy. simpl. rewrite Ht. simpl. rewrite Hlim. simpl.
  rewrite Hv. simpl.
  pose proof (alter_app_r attach sks
                [{| sock_url := url; readyState := CONNECTING; onopen := false;
                    onmessage := false; onerror := false; onclose := false |}] 0) as Ha.
  rewrite Nat.add_0_r in Ha. rewrite Ha. reflexivity.
Qed.

(** ** Who writes the queue *)

(** X7.  Only [send], a transport opening and a transport closing write the
    outbound queue: [disconnect], a timer, a frame, an error event, a change
    of address and the unmount leave it as it is. *)
Theorem queue_survives_other_turns (e : Event) (s : State) :
  writes_queue e = false ->
  messageQueueRef (step opts e s) = messageQueueRef s.
Proof.
  intros He. destruct s; simpl in *.
  destruct e; try discriminate; hook_cases; reflexivity.
Qed.

(** ** Unmounting and changing the address *)

Lemma effect_in_sync_mounted (url : option string) : effect_in_sync (mounted url) = true.
Proof.
  unfold mounted, effect_in_sync, main_effect, setTimeout, bind, modify, get. simpl.
  destruct (truthy url) eqn:Ht; simpl; rewrite ?Ht; simpl;
    by rewrite bool_decide_eq_true_2.
Qed.

Lemma effect_in_sync_step (e : Event) (s : State) :
  effect_in_sync s = true -> effect_in_sync (step opts e s) = true.
Proof.
  intros Hs. destruct s as [ws rto n u cr mc ic q c eu et sks tm nt tr].
  unfold effect_in_sync in *. simpl in *.
  destruct e; hook_cases; try done;
    rewrite ?bool_decide_eq_true_2 by done; simpl;
    repeat match goal with
           | H : _ && _ = true |- _ => apply andb_prop in H as [? ?]
           end; try done; try congruence;
    repeat match goal with
           | H : truthy _ = _ |- _ => rewrite H
           end; done.
Qed.

Lemma effect_in_sync_run (es : list Event) (s : State) :
  effect_in_sync s = true -> effect_in_sync (run opts es s) = true.
Proof.
  revert s. induction es as [|e es IH]; intros s Hs; [done|].
  rewrite run_cons. apply IH. by apply effect_in_sync_step.
Qed.

(** X8.  In every state reached from the mount in which the address is
    truthy, unmounting only clears the mount timer: the clean-up closure
    finds [urlRef.current === url], so the transport, the reconnection timer
    and the manual-close flag stay as they are. *)
Theorem unmount_only_cancels_mount_timer (url : option string) (es : list Event) :
  let s := run opts es (mounted url) in
  truthy (urlRef s) = true ->
  exists timeoutId,
    effectTimer s = Some timeoutId /\
    step opts Unmount s = set_timers (delete timeoutId (timers s)) s.
Proof.
  intros s Ht.
  pose proof (effect_in_sync_run es _ (effect_in_sync_mounted url)) as Hs.
  fold s in Hs. clearbody s.
  destruct s as [ws rto n u cr mc ic q c eu et sks tm nt tr].
  unfold effect_in_sync in Hs. simpl in *.
  apply andb_prop in Hs as [Hu Het]. apply bool_decide_eq_true_1 in Hu. subst eu.
  destruct et as [t|]; [|by rewrite Ht in Het].
  exists t. split; [done|].
  unfold step, dispatch, dispatch_with, main_effect_cleanup, clearTimeout, when, bind, modify, get. simpl.
  by rewrite bool_decide_eq_true_2.
Qed.

(** X9.  In every state reached from the mount with a truthy address and
    an Open current transport, changing to another truthy address stores the
    new address, clears the flag and the counter and schedules the 100 ms
    mount timer; when that timer fires [connect] finds the old transport
    Open and returns: no transport is constructed or closed. *)
Theorem address_change_reuses_open_transport (url : option string) (es : list Event)
    (new : string) :
  let s := run opts es (mounted url) in
  let s1 := step opts (UrlChanges (Some new)) s in
  let s2 := step opts (TimerFires (nextTimer s)) s1 in
  current_is OPEN s = true ->
  truthy (urlRef s) = true ->
  new <> "" ->
  urlRef s <> Some new ->
  urlRef s1 = Some new /\
  isManualCloseRef s1 = false /\
  reconnectAttemptsRef s1 = 0 /\
  timers s1 !! nextTimer s = Some {| timer_delay := ms 100; timer_body := MountDelay new |} /\
  sockets s2 = sockets s /\
  wsRef s2 = wsRef s /\
  connected s2 = connected s /\
  trace s2 = trace s.
Proof.
  intros s s1 s2 Hopen Ht Hne Hnew.
  pose proof (effect_in_sync_run es _ (effect_in_sync_mounted url)) as Hs.
  fold s in Hs. subst s1 s2. clearbody s.
  destruct s as [ws rto n u cr mc ic q c eu et sks tm nt tr].
  unfold effect_in_sync in Hs. simpl in *.
  apply andb_prop in Hs as [Hu Het]. apply bool_decide_eq_true_1 in Hu. subst eu.
  destruct et as [t|]; [|by rewrite Ht in Het].
  assert (Htn : negb (String.eqb new "") = true).
  { apply negb_true_iff. by apply String.eqb_neq. }
  unfold current_is in Hopen. simpl in Hopen.
  destruct ws as [h|]; [|done].
  assert (H1 : step opts (UrlChanges (Some new))
                 (Build_State (Some h) rto n u cr mc ic q c u (Some t) sks tm nt tr)
               = Build_State (Some h) rto 0 (Some new) cr false ic q c (Some new) (Some nt) sks
                   (<[nt := {| timer_delay := ms 100; timer_body := MountDelay new |}]>
                      (delete t tm)) (S nt) tr).
  { unfold step, dispatch, dispatch_with, url_changes, main_effect_cleanup, main_effect, clearTimeout,
      setTimeout, when, bind, modify, get. simpl.
    rewrite (bool_decide_eq_false_2 (Some new = u)) by congruence. simpl.
    rewrite (bool_decide_eq_true_2 (u = u)) by done. simpl.
    rewrite Htn. reflexivity. }
  rewrite H1. simpl.
  repeat (split; [done || apply lookup_insert_eq|]).
  unfold step, dispatch, dispatch_with, bind, get. simpl. rewrite lookup_insert_eq. simpl.
  unfold run_timer, when, bind, modify, get. simpl.
  rewrite (bool_decide_eq_true_2 (Some new = Some new)) by done. simpl.
  unfold connect, current_is, bind, get, truthy. simpl. rewrite Htn. simpl.
  unfold is_ready, ready_at, socket_at in *. simpl in *. rewrite Hopen. simpl.
  done.
Qed.

(** ** One attempt in flight *)

Lemma occ_intro (s : State) : occ (wsRef s) (sockets s) -> only_current_connecting s.
Proof.
  intros H h Hh. unfold is_ready, ready_at, socket_at in Hh.
  destruct (sockets s !! h) as [k|] eqn:Hk; [|done]. simpl in Hh.
  apply (H h k Hk). by destruct (readyState k).
Qed.

Lemma occ_elim (s : State) : only_current_connecting s -> occ (wsRef s) (sockets s).
Proof.
  intros H i k Hk Hr. apply H. unfold is_ready, ready_at, socket_at.
  by rewrite Hk; simpl; rewrite Hr.
Qed.

Lemma quiet_occ (w : option nat) (l : list Socket) : quiet l -> occ w l.
Proof. intros H i k Hk Hr. by destruct (H i k Hk). Qed.

Lemma occ_None_quiet (l : list Socket) : occ None l -> quiet l.
Proof. intros H i k Hk Hr. by specialize (H i k Hk Hr). Qed.

Lemma quiet_alter (f : Socket -> Socket) (i : nat) (l : list Socket) :
  (forall k, readyState (f k) = CONNECTING -> readyState k = CONNECTING) ->
  quiet l -> quiet (alter f i l).
Proof.
  intros Hf H j k Hk Hr. rewrite list_lookup_alter in Hk.
  case_decide; subst.
  - destruct (l !! j) as [k'|] eqn:Hk'; simplify_eq/=. by apply (H j k' Hk'), Hf.
  - by apply (H j k Hk).
Qed.

Lemma occ_alter (w : option nat) (f : Socket -> Socket) (i : nat) (l : list Socket) :
  (forall k, readyState (f k) = CONNECTING -> readyState k = CONNECTING) ->
  occ w l -> occ w (alter f i l).
Proof.
  intros Hf H j k Hk Hr. rewrite list_lookup_alter in Hk.
  case_decide; subst.
  - destruct (l !! j) as [k'|] eqn:Hk'; simplify_eq/=. by apply (H j k' Hk'), Hf.
  - by apply (H j k Hk).
Qed.

(** Settling the current transport leaves none connecting. *)
Lemma occ_settle (h : nat) (f : Socket -> Socket) (l : list Socket) :
  (forall k, readyState (f k) <> CONNECTING) ->
  occ (Some h) l -> quiet (alter f h l).
Proof.
  intros Hf H j k Hk Hr. rewrite list_lookup_alter in Hk.
  case_decide; subst.
  - destruct (l !! j) as [k'|] eqn:Hk'; simplify_eq/=. by apply (Hf k').
  - specialize (H j k Hk Hr). congruence.
Qed.

Lemma occ_settled (h : nat) (l : list Socket) :
  occ (Some h) l ->
  match readyState <$> l !! h with Some CONNECTING => False | _ => True end ->
  quiet l.
Proof.
  intros H Hh j k Hk Hr. specialize (H j k Hk Hr). simplify_eq.
  rewrite Hk in Hh. simpl in Hh. by rewrite Hr in Hh.
Qed.

Lemma occ_snoc (l : list Socket) (k : Socket) :
  quiet l -> occ (Some (length l)) (alter attach (length l) (l ++ [k])).
Proof.
  intros H i k' Hk Hr. rewrite list_lookup_alter in Hk.
  case_decide; subst; [done|].
  apply lookup_app_Some in Hk as [Hk|[Hge Hk]].
  - by destruct (H i k' Hk).
  - apply list_lookup_singleton_Some in Hk as [? _]. f_equal. lia.
Qed.

Lemma keeps_ret {A} (a : A) : keeps (ret a).
Proof. by intros s. Qed.

Lemma keeps_get : keeps get.
Proof. by intros s. Qed.

Lemma keeps_modify (f : State -> State) :
  (forall s, occ (wsRef s) (sockets s) -> occ (wsRef (f s)) (sockets (f s))) ->
  keeps (modify f).
Proof. intros Hf s. apply Hf. Qed.

Lemma keeps_bind {A B} (c : M A) (k : A -> M B) :
  keeps c -> (forall a, keeps (k a)) -> keeps (bind c k).
Proof.
  intros Hc Hk s Hs. unfold bind. specialize (Hc s Hs).
  destruct (c s) as [a s'|e s']; simpl in *; [by apply Hk|done].
Qed.

Lemma keeps_try_catch {A} (body : M A) (handler : Exn -> M A) :
  keeps body -> (forall e, keeps (handler e)) -> keeps (try_catch body handler).
Proof.
  intros Hb Hh s Hs. unfold try_catch. specialize (Hb s Hs).
  destruct (body s) as [a s'|e s']; simpl in *; [done|by apply Hh].
Qed.

Lemma keeps_when (b : bool) (c : M unit) : keeps c -> keeps (when b c).
Proof. intros Hc. destruct b; [done|apply keeps_ret]. Qed.

Lemma keeps_forEach_flush (h : nat) (q : list JsValue) : keeps (forEach q (flush_one h)).
Proof. intros s Hs. rewrite forEach_flush. by destruct s. Qed.

Lemma keeps_stringify (m : JsValue) : keeps (stringify m).
Proof. intros s Hs. unfold stringify. by destruct (JSON_stringify m). Qed.

Lemma keeps_parse (raw : string) : keeps (parse raw).
Proof. intros s Hs. unfold parse. by destruct (JSON_parse raw). Qed.

Lemma keeps_ws_send (h : nat) (frame : string) : keeps (ws_send h frame).
Proof.
  intros s Hs. unfold ws_send. destruct (ready_at h s) as [[]|]; try done. by destruct s.
Qed.

Ltac keeps_frame := intros []; simpl; try done; try (apply occ_alter; by intros []).

Ltac keeps_step :=
  lazymatch goal with
  | |- keeps (ret _) => apply keeps_ret
  | |- keeps get => apply keeps_get
  | |- keeps (forEach _ (flush_one _)) => apply keeps_forEach_flush
  | |- keeps (stringify _) => apply keeps_stringify
  | |- keeps (parse _) => apply keeps_parse
  | |- keeps (ws_send _ _) => apply keeps_ws_send
  | |- keeps (modify _) => apply keeps_modify; keeps_frame
  | |- keeps (when _ _) => apply keeps_when
  | |- keeps (bind _ _) => apply keeps_bind; [|intros ?]
  | |- keeps (try_catch _ _) => apply keeps_try_catch; [|intros ?]
  | |- keeps (match _ with _ => _ end) => case_match
  end.

Lemma keeps_schedule_reconnect (body : TimerBody) : keeps (schedule_reconnect opts body).
Proof.
  unfold schedule_reconnect. repeat keeps_step.
  intros s Hs. unfold setTimeout. by destruct s.
Qed.

Lemma keeps_cancel_reconnect_timer : keeps cancel_reconnect_timer.
Proof.
  unfold cancel_reconnect_timer, clearTimeout. apply keeps_bind; [apply keeps_get|].
  intros a. destruct (reconnectTimeoutRef a); repeat keeps_step.
Qed.

Lemma keeps_teardown_socket : keeps teardown_socket.
Proof.
  intros s Hs. destruct s as [ws rto n u cr mc ic q c eu et sks tm nt tr]. simpl in *.
  unfold teardown_socket, ws_close, try_catch, when, bind, modify, get, ret, is_ready,
    ready_at, socket_at, update_socket, emit. simpl.
  destruct ws as [h|]; [|done]. simpl.
  assert (Hd : occ (Some h) (alter detach h sks)) by (apply occ_alter; [by intros []|done]).
  destruct (readyState <$> alter detach h sks !! h) as [r|] eqn:Hr; simpl.
  - destruct r; simpl; rewrite ?Hr; simpl; apply quiet_occ.
    + apply occ_settle; [by intros []|done].
    + apply occ_settle; [by intros []|done].
    + apply (occ_settled h); [done|by rewrite Hr].
    + apply (occ_settled h); [done|by rewrite Hr].
  - apply quiet_occ, (occ_settled h); [done|by rewrite Hr].
Qed.

Lemma keeps_open_transport : 
  forall s, quiet (sockets s) ->
            occ (wsRef (final (open_transport opts s))) (sockets (final (open_transport opts s))).
Proof.
  intros s Hq. destruct s as [ws rto n u cr mc ic q c eu et sks tm nt tr]. simpl in *.
  unfold open_transport, new_WebSocket, try_catch, bind, modify, get, update_socket, emit.
  simpl. destruct (url_valid (default "" u)); simpl.
  - by apply occ_snoc.
  - apply (keeps_schedule_reconnect RetryAfterCatch). simpl. by apply quiet_occ.
Qed.

Lemma keeps_connect : keeps (connect opts).
Proof.
  intros s Hs. destruct s as [ws rto n u cr mc ic q c eu et sks tm nt tr]. simpl in *.
  unfold connect, bind, get. simpl.
  destruct (negb (truthy u) || mc); [done|].
  destruct (current_is OPEN _) eqn:Hcur; [done|].
  destruct ic; [done|].
  destruct (reached_limit n (maxReconnectAttempts opts)); [done|].
  destruct ws as [h|]; simpl.
  - unfold current_is, is_ready, ready_at, socket_at in *. simpl in *.
    destruct (readyState <$> sks !! h) as [r|] eqn:Hr; simpl.
    + destruct r; simpl in *; try done.
      * apply keeps_open_transport. simpl. apply (occ_settled h); [done|by rewrite Hr].
      * unfold try_catch, when, bind, modify, ret, update_socket. simpl.
        apply keeps_open_transport. simpl.
        apply quiet_alter; [by intros []|].
        apply (occ_settled h); [done|by rewrite Hr].
    + apply keeps_open_transport. simpl. apply (occ_settled h); [done|by rewrite Hr].
  - apply keeps_open_transport. simpl. by apply occ_None_quiet.
Qed.

Lemma keeps_close_event (h : nat) (b : bool) :
  keeps (bind (modify (update_socket h (set_readyState CLOSED)))
           (fun _ => when b (ws_onclose opts h))).
Proof.
  intros s Hs. destruct s as [ws rto n u cr mc ic q c eu et sks tm nt tr]. simpl in *.
  destruct b; [|by apply occ_alter; [by intros []|]].
  set (w' := if bool_decide (ws = Some h) then None else ws).
  assert (Heq :
    bind (modify (update_socket h (set_readyState CLOSED)))
      (fun _ => when true (ws_onclose opts h))
      (Build_State ws rto n u cr mc ic q c eu et sks tm nt tr)
    = schedule_reconnect opts RetryAfterClose
        (Build_State w' rto n u cr mc false [] false eu et
           (alter (set_readyState CLOSED) h sks) tm nt (tr ++ [ObsOnClose]))).
  { unfold ws_onclose, ws_onclose_with, call, returning, when, bind, modify, get, update_socket, emit. simpl.
    subst w'. by destruct (bool_decide (ws = Some h)). }
  rewrite Heq. apply (keeps_schedule_reconnect RetryAfterClose). simpl.
  subst w'. destruct (bool_decide (ws = Some h)) eqn:Hw.
  - apply bool_decide_eq_true_1 in Hw. subst.
    apply quiet_occ, occ_settle; [by intros []|done].
  - apply occ_alter; [by intros []|done].
Qed.

Lemma keeps_dispatch (e : Event) : keeps (dispatch opts e).
Proof.
  unfold dispatch, dispatch_with. apply keeps_bind; [apply keeps_get|]. intros a.
  destruct e.
  - (* send *)
    unfold send, transmit. repeat keeps_step.
    all: keeps_frame.
  - unfold disconnect. repeat keeps_step.
    + apply keeps_cancel_reconnect_timer.
    + apply keeps_teardown_socket.
  - destruct (timers a !! id); [|apply keeps_ret].
    unfold run_timer. repeat keeps_step; apply keeps_connect.
  - unfold ws_onopen_with, call, returning. cbn [onOpen]. repeat keeps_step.
  - unfold ws_onmessage_with, call, returning. cbn [handler]. repeat keeps_step.
  - unfold ws_onerror_with, call, returning. cbn [onError]. repeat keeps_step.
  - fold (ws_onclose opts h).
    destruct (ready_at h a) as [[]|]; try apply keeps_ret; apply keeps_close_event.
  - repeat keeps_step.
  - unfold url_changes, main_effect_cleanup, main_effect, effect_teardown, clearTimeout.
    repeat keeps_step.
    all: try apply keeps_cancel_reconnect_timer.
    all: try apply keeps_teardown_socket.
    all: try (intros s Hs; unfold setTimeout; by destruct s).
  - unfold main_effect_cleanup, effect_teardown, clearTimeout. repeat keeps_step.
    all: try apply keeps_cancel_reconnect_timer.
    all: try apply keeps_teardown_socket.
Qed.

Lemma reachable_occ (url : option string) (es : list Event) :
  occ (wsRef (run opts es (mounted url))) (sockets (run opts es (mounted url))).
Proof.
  assert (H0 : occ (wsRef (mounted url)) (sockets (mounted url))).
  { unfold mounted, main_effect, setTimeout, bind, modify, get. simpl.
    destruct (truthy url); simpl; by intros i k Hk. }
  revert H0. generalize (mounted url). induction es as [|e es IH]; intros s0 H0; [done|].
  rewrite run_cons. apply IH. by apply keeps_dispatch.
Qed.

(** X10.  In every state the hook reaches from its mount, a transport that
    is still Connecting is the current one ([wsRef]); so at most one
    connection attempt is in flight at any time. *)
Theorem one_attempt_in_flight (url : option string) (es : list Event) (h1 h2 : nat) :
  let s := run opts es (mounted url) in
  only_current_connecting s /\
  (is_ready h1 CONNECTING s = true -> is_ready h2 CONNECTING s = true -> h1 = h2).
Proof.
  intros s. pose proof (reachable_occ url es) as Hocc. fold s in Hocc.
  split; [by apply occ_intro|].
  intros H1 H2. apply occ_intro in Hocc.
  pose proof (Hocc h1 H1). pose proof (Hocc h2 H2). congruence.
Qed.

(** ** After [disconnect], for good *)

Lemma quiet_none_connecting (s : State) : quiet (sockets s) -> none_connecting s = true.
Proof.
  intros Hq. unfold none_connecting. apply forallb_forall. intros k Hin.
  apply list_elem_of_In, list_elem_of_lookup in Hin as [i Hi].
  specialize (Hq i k Hi). by destruct (readyState k).
Qed.

Lemma disconnected_step (e : Event) (s : State) :
  isManualCloseRef s = true ->
  wsRef s = None ->
  connected s = false ->
  none_connecting s = true ->
  keeps_address e = true ->
  isManualCloseRef (step opts e s) = true
  /\ wsRef (step opts e s) = None
  /\ connected (step opts e s) = false
  /\ none_connecting (step opts e s) = true.
Proof.
  intros Hm Hw Hc Hnc He.
  assert (Hno : forall h, is_ready h CONNECTING s = false)
    by (intros; by apply none_connecting_not_ready).
  destruct s as [ws rto n u cr mc ic q c eu et sks tm nt tr].
  unfold none_connecting in *; simpl in *; subst.
  destruct e; try discriminate;
    try specialize (Hno h);
    hook_unfold; simpl in *; rewrite ?Hno; bool_tidy; hook_split; cbn;
    repeat split; auto; try congruence;
    repeat (apply forallb_alter; [by intros []|]); auto.
Qed.

(** X11.  After [disconnect] in a state reached from the mount, as long as
    the address does not change: [connected] stays false, there is no
    current transport and no transport is Connecting. *)
Theorem disconnect_stays_disconnected (url : option string) (es0 es : list Event) :
  forallb keeps_address es = true ->
  let s' := run opts es (step opts CallDisconnect (run opts es0 (mounted url))) in
  connected s' = false /\ wsRef s' = None /\ none_connecting s' = true.
Proof.
  intros Hes s'.
  pose proof (reachable_occ url es0) as Hocc.
  set (s := run opts es0 (mounted url)) in *.
  assert (H0 : isManualCloseRef (step opts CallDisconnect s) = true
               /\ wsRef (step opts CallDisconnect s) = None
               /\ connected (step opts CallDisconnect s) = false
               /\ none_connecting (step opts CallDisconnect s) = true).
  { pose proof (keeps_dispatch CallDisconnect s Hocc) as Hk.
    fold (step opts CallDisconnect s) in Hk.
    assert (Hf : isManualCloseRef (step opts CallDisconnect s) = true
                 /\ wsRef (step opts CallDisconnect s) = None
                 /\ connected (step opts CallDisconnect s) = false).
    { clear. destruct s. hook_cases; done. }
    destruct Hf as (? & Hw & ?). repeat (split; [done|]).
    apply quiet_none_connecting, occ_None_quiet. by rewrite <- Hw. }
  subst s'. revert H0. generalize (step opts CallDisconnect s). clear -Hes.
  induction es as [|e es IH]; intros s (Hm & Hw & Hc & Hn); [done|].
  apply andb_prop in Hes as [He Hes]. rewrite run_cons. apply IH; [done|].
  by apply disconnected_step.
Qed.

(** ** Inbound frames *)

(** X12.  The frames an Open transport delivers reach the handler in
    arrival order, one call per frame [JSON.parse] decodes, and change
    nothing else. *)
Theorem frames_delivered_in_order (h : nat) (raws : list string) (s : State) :
  is_ready h OPEN s = true ->
  installed onmessage h s = true ->
  run opts (map (SocketMessage h) raws) s = set_trace (trace s ++ delivered raws) s.
Proof. apply messages_delivered. Qed.

(** ** A retry, from the close to the new transport *)

(** X18.  When the current transport closes and the retry condition holds,
    the counter is incremented and the retry timer scheduled; when that
    timer fires, [connect] constructs the next transport for the address,
    unless the incremented counter has reached [maxReconnectAttempts]: then
    the scheduled retry constructs nothing, so a budget of [m] gives at most
    [m - 1] reconnections. *)
Theorem retry_reconnects_below_budget (s : State) (h : nat) (url : string) :
  wsRef s = Some h ->
  is_ready h CLOSED s = false ->
  installed onclose h s = true ->
  retry_allowed opts s = true ->
  urlRef s = Some url ->
  url_valid url = true ->
  let closed := alter (set_readyState CLOSED) h (sockets s) in
  let s1 := step opts (SocketCloses h) s in
  let s2 := step opts (TimerFires (nextTimer s)) s1 in
  reconnectAttemptsRef s1 = S (reconnectAttemptsRef s) /\
  sockets s1 = closed /\
  (reached_limit (S (reconnectAttemptsRef s)) (maxReconnectAttempts opts) = false ->
   sockets s2 = closed ++ [connecting_socket_for url]
   /\ wsRef s2 = Some (length (sockets s))
   /\ isConnectingRef s2 = true) /\
  (reached_limit (S (reconnectAttemptsRef s)) (maxReconnectAttempts opts) = true ->
   sockets s2 = closed /\ wsRef s2 = None /\ trace s2 = trace s1).
Proof.
  intros Hws Hr Hi Hretry Hu Hv closed s1 s2.
  destruct s as [ws rto n u cr mc ic q c eu et sks tm nt tr]; simpl in *; subst.
  unfold retry_allowed in Hretry. simpl in Hretry.
  assert (Hall := Hretry).
  repeat (apply andb_prop in Hretry as [Hretry ?]).
  apply negb_true_iff in Hretry. subst.
  unfold is_ready, installed, ready_at, socket_at in *. simpl in *.
  destruct (sks !! h) as [k|] eqn:Hk; [|done]. simpl in *.
  assert (Hs1 : s1 = Build_State None (Some nt) (S n) (Some url) true false false [] false eu et
                      closed
                      (<[nt := {| timer_delay := reconnect_delay opts (S n);
                                  timer_body := RetryAfterClose |}]> tm)
                      (S nt) (tr ++ [ObsOnClose])).
  { subst s1 closed. unfold step, dispatch, dispatch_with, bind, get, ready_at, socket_at. simpl.
    rewrite Hk. simpl.
    destruct (readyState k) eqn:Hrs; try done;
      unfold when, installed, socket_at, modify, update_socket, bind; simpl; rewrite Hk, Hi;
      unfold ws_onclose, ws_onclose_with, call, returning, schedule_reconnect, setTimeout, when, bind, modify, get, emit; simpl;
      rewrite bool_decide_eq_true_2 by done; simpl; rewrite Hall; reflexivity. }
  subst s2. rewrite Hs1. simpl.
  split; [done|]. split; [done|].
  assert (Ht : truthy (Some url) = true) by done.
  unfold truthy in Ht.
  unfold step, dispatch, dispatch_with, bind, get. simpl. rewrite lookup_insert_eq. simpl.
  unfold run_timer, when, bind, modify, get. simpl.
  unfold connect, current_is, bind, get, truthy. simpl. rewrite Ht. simpl.
  split; intros Hlim; rewrite Hlim; simpl; [|done].
  unfold open_transport, new_WebSocket, try_catch, bind, modify, get, update_socket, emit.
  simpl. rewrite Hv. simpl.
  pose proof (alter_app_r attach closed
                [{| sock_url := url; readyState := CONNECTING; onopen := false;
                    onmessage := false; onerror := false; onclose := false |}] 0) as Ha.
  rewrite Nat.add_0_r in Ha. rewrite Ha.
  subst closed. by rewrite length_alter.
Qed.

(** ** A change of address while disconnected *)

(** X19.  With no current transport and nothing connecting, changing to a
    non-empty address [new WebSocket] accepts and letting the mount timer
    fire constructs one transport for the new address and makes it the
    current one, provided the budget is not zero. *)
Theorem address_change_connects_when_disconnected (s : State) (new : string) :
  wsRef s = None ->
  isConnectingRef s = false ->
  new <> "" ->
  Some new <> effectUrl s ->
  url_valid new = true ->
  reached_limit 0 (maxReconnectAttempts opts) = false ->
  let s2 := step opts (TimerFires (nextTimer s)) (step opts (UrlChanges (Some new)) s) in
  sockets s2 = sockets s ++ [connecting_socket_for new] /\
  wsRef s2 = Some (length (sockets s)) /\
  urlRef s2 = Some new /\
  reconnectAttemptsRef s2 = 0 /\
  isManualCloseRef s2 = false.
Proof.
  intros Hws Hic Hne Hnew Hv Hlim s2.
  destruct s as [ws rto n u cr mc ic q c eu et sks tm nt tr]; simpl in *; subst.
  assert (Htn : negb (String.eqb new "") = true).
  { apply negb_true_iff. by apply String.eqb_neq. }
  assert (H1 : exists rto' tm' c',
    step opts (UrlChanges (Some new))
      (Build_State None rto n u cr mc false q c eu et sks tm nt tr)
    = Build_State None rto' 0 (Some new) cr false false q c' (Some new) (Some nt) sks
        (<[nt := {| timer_delay := ms 100; timer_body := MountDelay new |}]> tm') (S nt) tr).
  { unfold step, dispatch, dispatch_with, url_changes, main_effect_cleanup, effect_teardown, main_effect,
      cancel_reconnect_timer, teardown_socket, clearTimeout, setTimeout, when, bind, modify,
      get, ret. simpl.
    rewrite (bool_decide_eq_false_2 (Some new = eu)) by done. simpl.
    destruct et as [t|]; simpl.
    - destruct (bool_decide (u = eu)); simpl.
      + rewrite Htn. simpl. eauto.
      + destruct rto; simpl; rewrite Htn; simpl; eauto.
    - destruct rto; simpl; rewrite Htn; simpl; eauto. }
  destruct H1 as (rto' & tm' & c' & H1). subst s2. rewrite H1.
  unfold step, dispatch, dispatch_with, bind, get. simpl. rewrite lookup_insert_eq. simpl.
  unfold run_timer, when, bind, modify, get. simpl.
  rewrite (bool_decide_eq_true_2 (Some new = Some new)) by done. simpl.
  unfold connect, current_is, bind, get, truthy. simpl. rewrite Htn. simpl.
  rewrite Hlim. simpl.
  unfold open_transport, new_WebSocket, try_catch, bind, modify, get, update_socket, emit.
  simpl. rewrite Hv. simpl.
  pose proof (alter_app_r attach sks
                [{| sock_url := new; readyState := CONNECTING; onopen := false;
                    onmessage := false; onerror := false; onclose := false |}] 0) as Ha.
  rewrite Nat.add_0_r in Ha. rewrite Ha. done.
Qed.

End FurtherProperties.

(** ** The further properties on concrete runs *)

(** X1 on [open_state] with callbacks that throw: the close event of
    transport 0 throws out of the hook, the handle is still there and no
    retry is scheduled; with callbacks that return, the same event drops the
    handle and schedules timer 2.  An inbound frame does not throw. *)
Lemma hook_never_throws_witness :
  dispatch_with (rt := sample_runtime) default_options failing (SocketCloses 0) open_state
  = Throws CallerError (before_onClose 0 open_state) /\
  wsRef (before_onClose 0 open_state) = Some 0 /\
  timers (before_onClose 0 open_state) = ∅ /\
  wsRef (step (rt := sample_runtime) default_options (SocketCloses 0) open_state) = None /\
  timer_body <$> timers (step (rt := sample_runtime) default_options (SocketCloses 0)
                           open_state) !! 2 = Some RetryAfterClose /\
  returns (dispatch_with (rt := sample_runtime) default_options failing
             (SocketMessage 0 "true") open_state) = true.
Proof.
  destruct (hook_never_throws (rt := sample_runtime) default_options failing
              (SocketCloses 0) open_state) as (_ & _ & _ & _ & Hm & _ & _ & _ & Hc).
  split; [apply Hc; vm_compute; reflexivity|].
  split; [vm_compute; reflexivity|].
  split; [vm_compute; reflexivity|].
  split; [vm_compute; reflexivity|].
  split; [vm_compute; reflexivity|].
  apply Hm.
Defined.

Lemma attempt_counter_resets_witness :
  reconnectAttemptsRef
    (step (rt := sample_runtime) three_attempts (SocketOpens 2)
       (run (rt := sample_runtime) three_attempts
          [TimerFires 1; SocketCloses 0; TimerFires 2; SocketCloses 1; TimerFires 3]
          (mounted feed))) = 0.
Proof.
  destruct (attempt_counter_resets (rt := sample_runtime) three_attempts
              (run (rt := sample_runtime) three_attempts
                 [TimerFires 1; SocketCloses 0; TimerFires 2; SocketCloses 1; TimerFires 3]
                 (mounted feed)) 2 None) as [Hopen _].
  apply Hopen; vm_compute; reflexivity.
Defined.

Lemma attempt_counter_bounded_witness :
  reconnectAttemptsRef
    (run (rt := sample_runtime) three_attempts
       [TimerFires 1; SocketCloses 0; TimerFires 2; SocketCloses 1;
        TimerFires 3; SocketCloses 2; TimerFires 4]
       (mounted feed)) <= 3.
Proof.
  apply (attempt_counter_bounded (rt := sample_runtime) three_attempts 3 feed).
  reflexivity.
Defined.

Lemma involuntary_close_resets_witness :
  messageQueueRef (step (rt := sample_runtime) default_options (SocketCloses 0)
                     (step (rt := sample_runtime) default_options (CallSend unencodable)
                        open_state)) = [].
Proof.
  destruct (involuntary_close_resets (rt := sample_runtime) default_options
              (step (rt := sample_runtime) default_options (CallSend unencodable) open_state) 0)
    as (_ & _ & _ & Hq & _); [vm_compute; reflexivity ..|exact Hq].
Defined.

Lemma sends_while_open_witness :
  run (rt := sample_runtime) default_options (map CallSend [ping; unencodable; JNull])
    open_state
  = set_trace (trace open_state ++ [ObsTransmit 0 ping_frame; ObsTransmit 0 "null"])
      (set_messageQueueRef [unencodable] open_state).
Proof.
  apply (sends_while_open (rt := sample_runtime) default_options 0
           [ping; unencodable; JNull] open_state); vm_compute; reflexivity.
Defined.

Lemma connect_constructs_one_transport_witness :
  sockets (final (connect (rt := sample_runtime) default_options (mounted feed)))
  = [connecting_socket_for "wss://feed.example/ws"].
Proof.
  rewrite (connect_constructs_one_transport (rt := sample_runtime) default_options
             (mounted feed) "wss://feed.example/ws");
    [reflexivity|vm_compute; reflexivity|discriminate|vm_compute; reflexivity ..].
Defined.

Lemma queue_survives_other_turns_witness :
  messageQueueRef (step (rt := sample_runtime) default_options
                     (UrlChanges (Some "wss://other.example/ws"))
                     (step (rt := sample_runtime) default_options (CallSend ping)
                        connecting_state))
  = [ping].
Proof.
  rewrite (queue_survives_other_turns (rt := sample_runtime) default_options);
    vm_compute; reflexivity.
Defined.

Lemma unmount_only_cancels_mount_timer_witness :
  exists timeoutId,
    effectTimer open_state = Some timeoutId /\
    step (rt := sample_runtime) default_options Unmount open_state
    = set_timers (delete timeoutId (timers open_state)) open_state.
Proof.
  apply (unmount_only_cancels_mount_timer (rt := sample_runtime) default_options feed
           [TimerFires 1; SocketOpens 0]).
  vm_compute; reflexivity.
Defined.

Lemma address_change_reuses_open_transport_witness :
  sockets (step (rt := sample_runtime) default_options (TimerFires (nextTimer open_state))
             (step (rt := sample_runtime) default_options
                (UrlChanges (Some "wss://other.example/ws")) open_state))
  = sockets open_state.
Proof.
  destruct (address_change_reuses_open_transport (rt := sample_runtime) default_options feed
              [TimerFires 1; SocketOpens 0] "wss://other.example/ws")
    as (_ & _ & _ & _ & Hs & _);
    [vm_compute; reflexivity|vm_compute; reflexivity|discriminate|discriminate|exact Hs].
Defined.

Lemma one_attempt_in_flight_witness :
  wsRef (run (rt := sample_runtime) default_options
           [TimerFires 1; SocketCloses 0; TimerFires 2] (mounted feed)) = Some 1.
Proof.
  destruct (one_attempt_in_flight (rt := sample_runtime) default_options feed
              [TimerFires 1; SocketCloses 0; TimerFires 2] 1 1) as [Hcur _].
  apply Hcur. vm_compute; reflexivity.
Defined.

Lemma disconnect_stays_disconnected_witness :
  connected (run (rt := sample_runtime) default_options
               [SocketOpens 0; TimerFires 1; CallSend ping; SocketCloses 0]
               (step (rt := sample_runtime) default_options CallDisconnect
                  (run (rt := sample_runtime) default_options [TimerFires 1] (mounted feed))))
  = false.
Proof.
  destruct (disconnect_stays_disconnected (rt := sample_runtime) default_options feed
              [TimerFires 1] [SocketOpens 0; TimerFires 1; CallSend ping; SocketCloses 0])
    as (Hc & _); [vm_compute; reflexivity|exact Hc].
Defined.

Lemma frames_delivered_in_order_witness :
  run (rt := sample_runtime) default_options
    (map (SocketMessage 0) ["true"; "{oops"; "null"]) open_state
  = set_trace (trace open_state ++ [ObsHandler (JBool true); ObsHandler JNull]) open_state.
Proof.
  apply (frames_delivered_in_order (rt := sample_runtime) default_options 0
           ["true"; "{oops"; "null"] open_state); vm_compute; reflexivity.
Defined.

Lemma retry_reconnects_below_budget_witness :
  sockets (step (rt := sample_runtime) three_attempts (TimerFires (nextTimer open_state))
             (step (rt := sample_runtime) three_attempts (SocketCloses 0) open_state))
  = alter (set_readyState CLOSED) 0 (sockets open_state)
    ++ [connecting_socket_for "wss://feed.example/ws"].
Proof.
  destruct (retry_reconnects_below_budget (rt := sample_runtime) three_attempts open_state 0
              "wss://feed.example/ws") as (_ & _ & Hgo & _);
    [vm_compute; reflexivity ..|].
  destruct Hgo as (Hs & _); [vm_compute; reflexivity|exact Hs].
Defined.

Lemma address_change_connects_when_disconnected_witness :
  sockets (step (rt := sample_runtime) default_options (TimerFires (nextTimer (mounted feed)))
             (step (rt := sample_runtime) default_options
                (UrlChanges (Some "wss://other.example/ws")) (mounted feed)))
  = sockets (mounted feed) ++ [connecting_socket_for "wss://other.example/ws"].
Proof.
  destruct (address_change_connects_when_disconnected (rt := sample_runtime) default_options
              (mounted feed) "wss://other.example/ws") as (Hs & _);
    [vm_compute; reflexivity|vm_compute; reflexivity|discriminate|discriminate
    |vm_compute; reflexivity|vm_compute; reflexivity|exact Hs].
Defined.

(** * The dashboard page *)

(** X13.  The trades recorded at [t] count in the tick at [now] exactly while
    [now - 1000 < t]; what was recorded before is counted as if they had
    not been pushed. *)
Theorem tps_counts_recent_trades (now t : Z) (count : nat) (stamps : list Z) :
  prune_timestamps now (record_trades t count stamps)
  = prune_timestamps now stamps ++ (if Z.ltb (now - 1000) t then replicate count t else [])
  /\ tps_at now (record_trades t count stamps)
     = tps_at now stamps + (if Z.ltb (now - 1000) t then count else 0).
Proof.
  assert (H : prune_timestamps now (record_trades t count stamps)
              = prune_timestamps now stamps
                ++ (if Z.ltb (now - 1000) t then replicate count t else [])).
  { unfold prune_timestamps, record_trades. rewrite List.filter_app. f_equal.
    induction count as [|n IH]; simpl; [by destruct (Z.ltb _ _)|].
    destruct (Z.ltb (now - 1000) t) eqn:Ht; simpl; by rewrite IH. }
  split; [exact H|].
  unfold tps_at. rewrite H, length_app.
  destruct (Z.ltb (now - 1000) t); simpl; by rewrite ?length_replicate.
Qed.

(** X14.  Pruning in place at every tick loses nothing a later tick would count:
    with a clock that does not go back, pruning at [now1] and then at
    [now2] is pruning at [now2]. *)
Theorem pruning_is_incremental (now1 now2 : Z) (stamps : list Z) :
  (now1 <= now2)%Z ->
  prune_timestamps now2 (prune_timestamps now1 stamps) = prune_timestamps now2 stamps.
Proof.
  intros Hle. unfold prune_timestamps.
  induction stamps as [|t stamps IH]; simpl; [done|].
  destruct (Z.ltb (now1 - 1000) t) eqn:H1; simpl.
  - by rewrite IH.
  - rewrite IH. destruct (Z.ltb (now2 - 1000) t) eqn:H2; [|done].
    apply Z.ltb_lt in H2. apply Z.ltb_ge in H1. lia.
Qed.

(** X15.  The transaction list never holds more than [MAX_ITEMS] entries; the new
    trades come first, in their order; when they fill the list by
    themselves nothing of the previous list is left, otherwise the previous
    list keeps its first entries. *)
Theorem transactions_are_capped {A} (trades prev : list A) :
  length (push_transactions trades prev) = Nat.min MAX_ITEMS (length trades + length prev)
  /\ (MAX_ITEMS <= length trades ->
      push_transactions trades prev = take MAX_ITEMS trades)
  /\ (length trades <= MAX_ITEMS ->
      push_transactions trades prev = trades ++ take (MAX_ITEMS - length trades) prev).
Proof.
  unfold push_transactions. repeat split.
  - by rewrite length_take, length_app.
  - intros Hle. by apply take_app_le.
  - intros Hle. rewrite take_app. f_equal. by apply take_ge.
Qed.

Lemma string_length_append (a b : string) :
  String.length (a +:+ b) = String.length a + String.length b.
Proof. induction a as [|c a IH]; simpl; [done|]. by rewrite IH. Qed.

Lemma string_length_substring (n m : nat) (a : string) :
  String.length (String.substring n m a) = Nat.min m (String.length a - n).
Proof.
  revert n m. induction a as [|c a IH]; intros n m.
  - destruct n, m; reflexivity.
  - destruct n as [|n]; simpl.
    + destruct m as [|m]; simpl; [done|]. rewrite IH. f_equal. f_equal. lia.
    + by rewrite IH.
Qed.

(** X16.  [formatHash] shows "N/A" for the empty string and nothing else; any
    other text becomes its first 8 characters, three dots and its last 6
    characters, so the result has at most 17 characters, and exactly 17
    once the text has 8 or more. *)
Theorem formatHash_shape (hash : string) :
  (hash = "" -> formatHash hash = "N/A") /\
  (hash <> "" ->
   formatHash hash = String.substring 0 8 hash +:+ "..." +:+ String.substring (String.length hash - 6) 6 hash
   /\ String.length (formatHash hash)
      = Nat.min 8 (String.length hash) + 3 + Nat.min 6 (String.length hash)
   /\ String.prefix (String.substring 0 8 hash) (formatHash hash) = true).
Proof.
  split.
  - by intros ->.
  - intros Hne. unfold formatHash, slice_front, slice_back.
    apply String.eqb_neq in Hne. rewrite Hne.
    split; [done|]. split.
    + rewrite !string_length_append, !string_length_substring.
      change (String.length "...") with 3. lia.
    + apply String.prefix_correct.
      generalize (String.substring 0 8 hash) as p. intros p.
      generalize ("..." +:+ String.substring (String.length hash - 6) 6 hash) as r. intros r.
      induction p as [|c p IH]; simpl; [by destruct r|]. by rewrite IH.
Qed.

(** X17.  The entry just pushed always survives the pruning, so the history is
    never empty afterwards, its last entry is the current price, every entry
    is younger than 24 hours, and the reference price is the price of the
    oldest entry kept: the current price itself on a first update. *)
Theorem price_history_after_push {P} (now : Z) (currentPrice : P) (history : list (P * Z)) :
  let history' := push_price now currentPrice history in
  last history' = Some (currentPrice, now) /\
  Forall (fun entry => (now - DAY_MS < snd entry)%Z) history' /\
  (exists oldest, head history' = Some oldest
                  /\ price24h currentPrice history' = fst oldest) /\
  price24h currentPrice (push_price now currentPrice []) = currentPrice.
Proof.
  intros history'. subst history'. unfold push_price.
  assert (Hnow : Z.ltb (now - DAY_MS) now = true) by (apply Z.ltb_lt; unfold DAY_MS; lia).
  rewrite List.filter_app. simpl. rewrite Hnow.
  split; [by rewrite last_snoc|].
  split.
  { apply Forall_app. split.
    - apply Forall_forall. intros e He. apply list_elem_of_In, filter_In in He as [_ He].
      by apply Z.ltb_lt.
    - apply Forall_singleton. simpl. unfold DAY_MS. lia. }
  split; [|done].
  destruct (List.filter _ history) as [|e rest]; simpl; eauto.
Qed.

Lemma pruning_is_incremental_witness :
  prune_timestamps 2500 (prune_timestamps 2000 [900; 1200; 1600; 2000]%Z)
  = prune_timestamps 2500 [900; 1200; 1600; 2000]%Z.
Proof. apply pruning_is_incremental. lia. Defined.

Lemma transactions_are_capped_witness :
  push_transactions [1; 2; 3] [4; 5; 6; 7; 8; 9; 10; 11; 12]
  = [1; 2; 3] ++ take (MAX_ITEMS - 3) [4; 5; 6; 7; 8; 9; 10; 11; 12].
Proof.
  destruct (transactions_are_capped [1; 2; 3] [4; 5; 6; 7; 8; 9; 10; 11; 12])
    as (_ & _ & Hfew).
  apply Hfew. vm_compute. lia.
Defined.

Lemma formatHash_shape_witness :
  formatHash "0x1234567890abcdef" = "0x123456...abcdef" /\ formatHash "" = "N/A".
Proof.
  destruct (formatHash_shape "0x1234567890abcdef") as [_ Hfull].
  destruct (formatHash_shape "") as [Hempty _].
  split; [|by apply Hempty].
  destruct Hfull as (Heq & _); [discriminate|]. rewrite Heq. reflexivity.
Defined.
